(** * SVGViewer: a shallow embedding of [src/components/SVGViewer.tsx]

    The component keeps the SVG text of the editor, a dimension-normalised
    copy for the preview, a zoom factor, and a row of export actions.  This
    file embeds the functions of the component as Rocq definitions and proves
    the properties its specification states about them.

    Conventions of the embedding.
    - A JavaScript string is a [string]: a sequence of code units, here the
      code units below 256.
    - A JavaScript number is a [number]: NaN, an infinity, or a finite value
      held as a rational.  The conversions between strings and numbers that
      round ([Number], [toString]) are parameters of the development; the
      integer parser [parseInt] is written out.
    - The browser objects the component talks to (DOM parser, serialiser,
      clipboard, image decoder, canvas) are parameters: every theorem holds
      for every behaviour of them.
    - A handler is a computation in the monad [M]: it appends to a trace of
      observable events and either returns or throws. *)

From Stdlib Require Import String Ascii List ZArith QArith Qminmax Lia Bool.
From Stdlib Require Import DecimalString.
From stdpp Require Import gmap strings list.

Open Scope string_scope.
Open Scope list_scope.

(** ** Regular expressions

    [isValidSvg] is a call of [RegExp.prototype.test].  The fragment of the
    pattern language it uses is embedded with its denotation [Matches] and
    an executable matcher built on derivatives. *)

Module RegExp.

Inductive regex : Type :=
| Void
| Eps
| Class (p : ascii -> bool)
| Cat (r s : regex)
| Alt (r s : regex)
| Star (r : regex).

Inductive Matches : regex -> list ascii -> Prop :=
| MEps : Matches Eps []
| MClass p c : p c = true -> Matches (Class p) [c]
| MCat r s u v : Matches r u -> Matches s v -> Matches (Cat r s) (u ++ v)
| MAltL r s u : Matches r u -> Matches (Alt r s) u
| MAltR r s u : Matches s u -> Matches (Alt r s) u
| MStarNil r : Matches (Star r) []
| MStarCons r u v : Matches r u -> Matches (Star r) v -> Matches (Star r) (u ++ v).

Fixpoint nullable (r : regex) : bool :=
  match r with
  | Void => false
  | Eps => true
  | Class _ => false
  | Cat r s => nullable r && nullable s
  | Alt r s => nullable r || nullable s
  | Star _ => true
  end.

Fixpoint deriv (c : ascii) (r : regex) : regex :=
  match r with
  | Void => Void
  | Eps => Void
  | Class p => if p c then Eps else Void
  | Cat r s =>
      if nullable r then Alt (Cat (deriv c r) s) (deriv c s)
      else Cat (deriv c r) s
  | Alt r s => Alt (deriv c r) (deriv c s)
  | Star r => Cat (deriv c r) (Star r)
  end.

(** Does [r] match the whole of [w]? *)
Fixpoint matchb (r : regex) (w : list ascii) : bool :=
  match w with
  | [] => nullable r
  | c :: w' => matchb (deriv c r) w'
  end.

(** Does [r] match some prefix of [w]?  (One attempt of the matcher at a
    fixed start index.) *)
Fixpoint matchPrefix (r : regex) (w : list ascii) : bool :=
  nullable r ||
  match w with
  | [] => false
  | c :: w' => matchPrefix (deriv c r) w'
  end.

(** [RegExp.prototype.test] without the [g] and [y] flags: the start index
    runs from 0 to the end of the input until an attempt succeeds. *)
Fixpoint test (r : regex) (w : list ascii) : bool :=
  matchPrefix r w ||
  match w with
  | [] => false
  | _ :: w' => test r w'
  end.

(** A literal code unit, a literal word, and the two character classes of
    the pattern. *)
Definition lit (c : ascii) : regex := Class (Ascii.eqb c).

(** Canonicalisation under the [i] flag, for the code units below 128 that
    are letters: the upper-case letter. *)
Definition canonicalize (c : ascii) : ascii :=
  let n := nat_of_ascii c in
  if (97 <=? n)%nat && (n <=? 122)%nat then ascii_of_nat (n - 32) else c.

Definition litIgnoreCase (c : ascii) : regex :=
  Class (fun x => Ascii.eqb (canonicalize x) (canonicalize c)).

Fixpoint word (mk : ascii -> regex) (s : list ascii) : regex :=
  match s with
  | [] => Eps
  | c :: s' => Cat (mk c) (word mk s')
  end.

Definition anyChar : regex := Class (fun _ => true).
Definition notChar (c : ascii) : regex := Class (fun x => negb (Ascii.eqb x c)).

End RegExp.

Import RegExp.

(** ** The validity check *)

(** The code units of a string. *)
Definition codeUnits (s : string) : list ascii := list_ascii_of_string s.

(** The pattern [/<svg[^>]*>[\s\S]*<\/svg>/i]. *)
Definition svgPattern : regex :=
  Cat (word litIgnoreCase (codeUnits "<svg"))
  (Cat (Star (notChar ">"%char))
  (Cat (lit ">"%char)
  (Cat (Star anyChar)
       (word litIgnoreCase (codeUnits "</svg>"))))).

(** [isValidSvg], lines 268-270. *)
Definition isValidSvg (code : string) : bool :=
  test svgPattern (codeUnits code).

(** The specification's wording of the check: the text contains an opening
    tag, [<svg] followed by characters other than [>] and then [>], and
    somewhere after it a closing tag [</svg>], letters compared without
    regard to case. *)
Definition equalsIgnoreCase (u v : list ascii) : Prop :=
  map canonicalize u = map canonicalize v.

Definition spec_hasSvgTags (code : string) : Prop :=
  exists before open attrs inner close after,
    codeUnits code =
      before ++ open ++ attrs ++ [">"%char] ++ inner ++ close ++ after
    /\ equalsIgnoreCase open (codeUnits "<svg")
    /\ Forall (fun c => c <> ">"%char) attrs
    /\ equalsIgnoreCase close (codeUnits "</svg>").

(** ** Strings and numbers of the language *)

(** Truthiness of a string: [!s] holds of the empty string only. *)
Definition isEmpty (s : string) : bool :=
  match s with
  | EmptyString => true
  | String _ _ => false
  end.

(** White space and line terminators among the code units below 256: TAB,
    LF, VT, FF, CR, SP and NBSP. *)
Definition isWhiteSpace (c : ascii) : bool :=
  let n := nat_of_ascii c in
  ((9 <=? n)%nat && (n <=? 13)%nat) || (n =? 32)%nat || (n =? 160)%nat.

Fixpoint trimStart (s : string) : string :=
  match s with
  | EmptyString => EmptyString
  | String c s' => if isWhiteSpace c then trimStart s' else s
  end.

Fixpoint trimEnd (s : string) : string :=
  match s with
  | EmptyString => EmptyString
  | String c s' =>
      match trimEnd s' with
      | EmptyString => if isWhiteSpace c then EmptyString else String c EmptyString
      | t => String c t
      end
  end.

(** [String.prototype.trim]. *)
Definition trim (s : string) : string := trimEnd (trimStart s).

(** [String.prototype.split] with a separator of one code unit. *)
Fixpoint split (sep : ascii) (s : string) : list string :=
  match s with
  | EmptyString => [EmptyString]
  | String c s' =>
      if Ascii.eqb c sep then EmptyString :: split sep s'
      else match split sep s' with
           | [] => [String c EmptyString]
           | h :: t => String c h :: t
           end
  end.

(** [a || b] on an optional string: [null] and the empty string are falsy. *)
Definition orElse (a : option string) (b : string) : string :=
  match a with
  | None => b
  | Some s => if isEmpty s then b else s
  end.

(** A number: NaN, an infinity, or a finite value. *)
Inductive number : Type :=
| NaN
| Infinity (negative : bool)
| Finite (q : Q).

(** [!n]: NaN and zero are falsy. *)
Definition falsy (n : number) : bool :=
  match n with
  | NaN => true
  | Infinity _ => false
  | Finite q => Qeq_bool q 0
  end.

Definition ofZ (z : Z) : number := Finite (inject_Z z).

(** The value of a digit in radix up to 36. *)
Definition digitValue (c : ascii) : option Z :=
  let n := Z.of_nat (nat_of_ascii c) in
  if (48 <=? n)%Z && (n <=? 57)%Z then Some (n - 48)%Z
  else if (97 <=? n)%Z && (n <=? 122)%Z then Some (n - 87)%Z
  else if (65 <=? n)%Z && (n <=? 90)%Z then Some (n - 55)%Z
  else None.

(** The longest prefix of radix-[radix] digits, as an integer; [acc] is the
    value read so far, [None] before the first digit. *)
Fixpoint parseDigits (radix : Z) (s : string) (acc : option Z) : option Z :=
  match s with
  | EmptyString => acc
  | String c s' =>
      match digitValue c with
      | Some d =>
          if (d <? radix)%Z
          then parseDigits radix s' (Some (default 0%Z acc * radix + d)%Z)
          else acc
      | None => acc
      end
  end.

(** [parseInt(s)] with no radix argument: leading white space is skipped, a
    sign is read, a [0x] prefix selects radix 16, the longest prefix of
    digits is the value, and there is no value without a digit. *)
Definition parseInt (s : string) : number :=
  let s0 := trimStart s in
  let '(negative, s1) :=
    match s0 with
    | String "-"%char r => (true, r)
    | String "+"%char r => (false, r)
    | _ => (false, s0)
    end in
  let '(radix, s2) :=
    match s1 with
    | String "0"%char (String "x"%char r) => (16%Z, r)
    | String "0"%char (String "X"%char r) => (16%Z, r)
    | _ => (10%Z, s1)
    end in
  match parseDigits radix s2 None with
  | None => NaN
  | Some z => ofZ (if negative then - z else z)
  end.

(** ** The document object model *)

(** A node of a parsed document: text, or an element with its attributes
    and children. *)
Inductive Node : Type :=
| TextNode (data : string)
| ElementNode (localName : string) (attributes : gmap string string)
              (childNodes : list Node).

Definition attributesOf (n : Node) : gmap string string :=
  match n with
  | TextNode _ => ∅
  | ElementNode _ a _ => a
  end.

Definition getAttribute (n : Node) (name : string) : option string :=
  attributesOf n !! name.

Definition hasAttribute (n : Node) (name : string) : bool :=
  bool_decide (is_Some (getAttribute n name)).

Definition setAttribute (n : Node) (name value : string) : Node :=
  match n with
  | TextNode _ => n
  | ElementNode t a cs => ElementNode t (<[name := value]> a) cs
  end.

(** [querySelector] with a type selector: the first element of that name in
    tree order. *)
Fixpoint querySelector (sel : string) (n : Node) : option Node :=
  match n with
  | TextNode _ => None
  | ElementNode t _ cs =>
      if String.eqb t sel then Some n
      else (fix first (l : list Node) : option Node :=
              match l with
              | [] => None
              | c :: l' =>
                  match querySelector sel c with
                  | Some r => Some r
                  | None => first l'
                  end
              end) cs
  end.

(** The element [querySelector] returns is the node inside the document:
    what the code does to it, it does to the document.  [updateSelected sel
    f doc] is the document with [f] applied to that element in its place,
    [None] when there is none. *)
Fixpoint updateSelected (sel : string) (f : Node -> Node) (n : Node)
  : option Node :=
  match n with
  | TextNode _ => None
  | ElementNode t a cs =>
      if String.eqb t sel then Some (f n)
      else
        option_map (ElementNode t a)
          ((fix first (l : list Node) : option (list Node) :=
              match l with
              | [] => None
              | c :: l' =>
                  match updateSelected sel f c with
                  | Some c' => Some (c' :: l')
                  | None => option_map (cons c) (first l')
                  end
              end) cs)
  end.

(** The changed element put back in its place. *)
Definition replaceSelected (sel : string) (element : Node) (doc : Node) : Node :=
  default doc (updateSelected sel (fun _ => element) doc).

(** ** The platform

    What the component gets from the JavaScript engine and the browser.  The
    fields that stand for an operation that can fail give the outcome of
    the one call a handler makes. *)

Inductive Error : Type :=
| JsError (message : string).

Record Platform : Type := {
  (** [Number(s)] and [n.toString()] *)
  Number : string -> number;
  toString : number -> string;
  (** the double an exact sum or difference of doubles is rounded to *)
  round : Q -> Q;
  (** [new DOMParser().parseFromString(s, 'image/svg+xml')]; a text that
      does not parse gives a document too *)
  parseFromString : string -> Node;
  (** [new XMLSerializer().serializeToString(node)] *)
  serializeToString : Node -> string;
  (** [btoa(unescape(encodeURIComponent(s)))] *)
  base64 : string -> string;
  (** whether an image with this source fires [onload] (or else [onerror]) *)
  imageLoads : string -> bool;
  (** whether [canvas.getContext('2d')] gives a context (or else [null]) *)
  hasContext2d : bool;
  (** [navigator.clipboard.readText()]: the text, or the rejection *)
  clipboardReadText : Error + string;
  (** [navigator.clipboard.writeText(s)]: the rejection, if any *)
  clipboardWriteText : string -> option Error
}.

(** ** Dimension inference *)

Section Dimensions.

Variable P : Platform.

(** [getAttribute('viewBox')?.split(' ').map(Number)] *)
Definition viewBoxNumbers (svgElement : Node) : option (list number) :=
  (fun v => map (Number P) (split " "%char v)) <$> getAttribute svgElement "viewBox".

(** Lines 59-79 of [ensureSvgDimensions]: what is done to the element. *)
Definition ensureElementDimensions (svgElement : Node) : Node :=
  let el1 :=
    if (negb (hasAttribute svgElement "width")
        || negb (hasAttribute svgElement "height"))
       && hasAttribute svgElement "viewBox"
    then
      match viewBoxNumbers svgElement with
      | Some [_; _; width; height] =>
          let el :=
            if negb (hasAttribute svgElement "width")
            then setAttribute svgElement "width" (toString P width)
            else svgElement in
          if negb (hasAttribute el "height")
          then setAttribute el "height" (toString P height)
          else el
      | _ => svgElement
      end
    else svgElement in
  let el2 :=
    if negb (hasAttribute el1 "width")
    then setAttribute el1 "width" "300" else el1 in
  if negb (hasAttribute el2 "height")
  then setAttribute el2 "height" "300" else el2.

(** [ensureSvgDimensions], lines 50-82. *)
Definition ensureSvgDimensions (svgCode : string) : string :=
  if isEmpty svgCode || negb (isValidSvg svgCode) then svgCode
  else
    let doc := parseFromString P svgCode in
    match querySelector "svg" doc with
    | None => svgCode
    | Some svgElement =>
        let svgElement := ensureElementDimensions svgElement in
        serializeToString P (replaceSelected "svg" svgElement doc)
    end.

(** Lines 145-161 of [exportAsImage]: the size of the raster. *)
Definition exportDimensions (svgElement : Node) : number * number :=
  let width := parseInt (orElse (getAttribute svgElement "width") "0") in
  let height := parseInt (orElse (getAttribute svgElement "height") "0") in
  let '(width, height) :=
    if falsy width || falsy height then
      match viewBoxNumbers svgElement with
      | Some [_; _; w; h] => (w, h)
      | _ => (width, height)
      end
    else (width, height) in
  if falsy width || falsy height then (ofZ 800, ofZ 600)
  else (width, height).

End Dimensions.

(** ** Handlers: events, outcomes and the handler monad *)

Inductive ToastKind : Type := ToastSuccess | ToastError | ToastInfo.

Inductive DrawOp : Type :=
| FillRect (fillStyle : string) (x y w h : number)
| DrawImage (src : string) (x y w h : number).

Record Canvas : Type := {
  canvasWidth : number;
  canvasHeight : number;
  canvasOps : list DrawOp
}.

(** What is handed to [saveAs]: a blob of text, or the data URL a canvas
    encodes to. *)
Inductive Payload : Type :=
| Blob (content : string) (type : string)
| CanvasDataURL (canvas : Canvas) (type : string) (quality : option Q).

(** The observable effects of a handler, in the order they happen. *)
Inductive Event : Type :=
| Toast (kind : ToastKind) (message : string)
| ConsoleError (label : string)
| SaveAs (data : Payload) (name : string)
| ClipboardWritten (text : string)
| SetSvgCode (value : string)
| SetFileName (value : string)
| SetScale (value : Q)
| SetPosition (x y : Q).

(** A handler computation: the events so far, and a value or the error
    thrown. *)
Definition M (A : Type) : Type := (list Event * (Error + A))%type.

#[export] Instance M_ret : MRet M := fun A a => ([], inr a).

#[export] Instance M_bind : MBind M := fun A B k m =>
  match m with
  | (t, inl e) => (t, inl e)
  | (t, inr a) => let '(t', r) := k a in (t ++ t', r)
  end.

Definition throw {A : Type} (e : Error) : M A := ([], inl e).

Definition emit (ev : Event) : M unit := ([ev], inr tt).

(** [try { m } catch (error) { h error }] *)
Definition tryCatch {A : Type} (m : M A) (h : Error -> M A) : M A :=
  match m with
  | (t, inl e) => let '(t', r) := h e in (t ++ t', r)
  | (t, inr a) => (t, inr a)
  end.

(** [await p] for a promise that has settled as [r]. *)
Definition await {A : Type} (r : Error + A) : M A := ([], r).

Definition events {A : Type} (m : M A) : list Event := fst m.

(** The handler returned (its promise is fulfilled), it did not throw. *)
Definition returns {A : Type} (m : M A) : bool :=
  match snd m with
  | inl _ => false
  | inr _ => true
  end.

Definition toast (kind : ToastKind) (message : string) : M unit :=
  emit (Toast kind message).

Definition isToast (kind : ToastKind) (ev : Event) : bool :=
  match ev, kind with
  | Toast ToastSuccess _, ToastSuccess => true
  | Toast ToastError _, ToastError => true
  | Toast ToastInfo _, ToastInfo => true
  | _, _ => false
  end.


Definition isSaveAs (ev : Event) : bool :=
  match ev with
  | SaveAs _ _ => true
  | _ => false
  end.

(** ** The component *)

(** The state of the component: the [useState] cells that are read, and the
    document of the editor view.  ([handleSvgChange], [handleClear],
    [handleDownload] and [updatePreview] are attached to no element and are
    left out.) *)
Record State : Type := {
  svgCode : string;
  fileName : string;
  scale : Q;
  position : Q * Q;
  previewSvgCode : string;
  editorDoc : string
}.

Definition initialState (initialSvg : string) : State :=
  {| svgCode := initialSvg; fileName := "svg-preview"; scale := 1;
     position := (0%Q, 0%Q); previewSvgCode := ""; editorDoc := initialSvg |}.

Inductive Format : Type := png | jpeg | svg.

Definition toUpperCase (format : Format) : string :=
  match format with
  | png => "PNG"
  | jpeg => "JPEG"
  | svg => "SVG"
  end.

(** The double nearest to 0.1. *)
Definition tenth : Q := 3602879701896397 # 36028797018963968.

Section Handlers.

Variable P : Platform.

(** [handlePasteFromClipboard], lines 112-125. *)
Definition handlePasteFromClipboard : M unit :=
  tryCatch
    (clipboardText ← await (clipboardReadText P);
     if isValidSvg clipboardText then
       emit (SetSvgCode clipboardText);;
       toast ToastSuccess "已从剪贴板导入SVG"
     else
       toast ToastError "剪贴板内容不是有效的SVG")
    (fun error =>
       emit (ConsoleError "Failed to read from clipboard:");;
       toast ToastError "从剪贴板读取失败").

(** Lines 172-183: the image element is given its source and awaited. *)
Definition loadImage (dataUrl : string) : M unit :=
  if imageLoads P dataUrl then mret tt
  else emit (ConsoleError "Image load error:");;
       throw (JsError "图片加载失败").

(** Lines 185-200: the canvas with its white background and the image. *)
Definition drawCanvas (dataUrl : string) (width height : number) : M Canvas :=
  if hasContext2d P then
    mret {| canvasWidth := width; canvasHeight := height;
            canvasOps := [FillRect "white" (ofZ 0) (ofZ 0) width height;
                          DrawImage dataUrl (ofZ 0) (ofZ 0) width height] |}
  else throw (JsError "无法创建canvas上下文").

(** [exportAsImage], lines 127-222. *)
Definition exportAsImage (st : State) (format : Format) : M unit :=
  if isEmpty (svgCode st) then
    toast ToastError "没有SVG代码可导出"
  else
    tryCatch
      (let svgDoc := parseFromString P (svgCode st) in
       match querySelector "svg" svgDoc with
       | None => toast ToastError "无效的SVG代码"
       | Some svgElement =>
           let '(width, height) := exportDimensions P svgElement in
           let svgElement :=
             setAttribute (setAttribute svgElement "width" (toString P width))
                          "height" (toString P height) in
           let svgString := serializeToString P svgElement in
           let svgBase64 := base64 P svgString in
           let dataUrl := "data:image/svg+xml;base64," +:+ svgBase64 in
           loadImage dataUrl;;
           canvas ← drawCanvas dataUrl width height;
           match format with
           | png =>
               emit (SaveAs (CanvasDataURL canvas "image/png" None)
                            (fileName st +:+ ".png"))
           | jpeg =>
               emit (SaveAs (CanvasDataURL canvas "image/jpeg" (Some (95 # 100)))
                            (fileName st +:+ ".jpg"))
           | svg =>
               emit (SaveAs (Blob (svgCode st) "image/svg+xml;charset=utf-8")
                            (fileName st +:+ ".svg"))
           end;;
           toast ToastSuccess ("导出为 " +:+ toUpperCase format)
       end)
      (fun error =>
         emit (ConsoleError "Export failed:");;
         toast ToastError "导出失败，请重试").

(** [downloadSvgCode], lines 224-233. *)
Definition downloadSvgCode (st : State) : M unit :=
  if isEmpty (trim (svgCode st)) then
    toast ToastError "没有 SVG 代码可下载"
  else
    emit (SaveAs (Blob (svgCode st) "text/plain;charset=utf-8")
                 (fileName st +:+ ".svg"));;
    toast ToastSuccess "SVG 代码已下载".

(** [copySvgCode], lines 235-248. *)
Definition copySvgCode (st : State) : M unit :=
  if isEmpty (trim (svgCode st)) then
    toast ToastError "没有 SVG 代码可复制"
  else
    tryCatch
      (match clipboardWriteText P (svgCode st) with
       | Some e => throw e
       | None => emit (ClipboardWritten (svgCode st))
       end;;
       toast ToastSuccess "SVG 代码已复制到剪贴板")
      (fun error =>
         emit (ConsoleError "Copy failed:");;
         toast ToastError "复制到剪贴板失败").

(** [handleScaleChange], lines 250-252; [value] is the number
    [parseFloat] reads from the range input. *)
Definition handleScaleChange (value : Q) : M unit :=
  emit (SetScale value).

(** [resetPosition], lines 263-265. *)
Definition resetPosition : M unit :=
  emit (SetPosition 0 0).

(** [zoomIn] and [zoomOut], lines 254-260. *)
Definition zoomIn (st : State) : M unit :=
  emit (SetScale (Qmin (round P (scale st + tenth)) 3)).

Definition zoomOut (st : State) : M unit :=
  emit (SetScale (Qmax (round P (scale st - tenth)) tenth)).

(** [clearSvgCode], lines 272-275. *)
Definition clearSvgCode : M unit :=
  emit (SetSvgCode "");;
  toast ToastInfo "SVG 内容已清除".

(** The state setters among the events of a handler. *)
Definition applyEvent (st : State) (ev : Event) : State :=
  match ev with
  | SetSvgCode v =>
      {| svgCode := v; fileName := fileName st; scale := scale st;
         position := position st; previewSvgCode := previewSvgCode st;
         editorDoc := editorDoc st |}
  | SetFileName v =>
      {| svgCode := svgCode st; fileName := v; scale := scale st;
         position := position st; previewSvgCode := previewSvgCode st;
         editorDoc := editorDoc st |}
  | SetScale v =>
      {| svgCode := svgCode st; fileName := fileName st; scale := v;
         position := position st; previewSvgCode := previewSvgCode st;
         editorDoc := editorDoc st |}
  | SetPosition x y =>
      {| svgCode := svgCode st; fileName := fileName st; scale := scale st;
         position := (x, y); previewSvgCode := previewSvgCode st;
         editorDoc := editorDoc st |}
  | _ => st
  end.

(** The update listener of the editor, lines 308-314, on a change of the
    document to [newSvgCode]. *)
Definition updateListener (newSvgCode : string) (st : State) : State :=
  {| svgCode := newSvgCode; fileName := fileName st; scale := scale st;
     position := position st;
     previewSvgCode := ensureSvgDimensions P newSvgCode;
     editorDoc := newSvgCode |}.

(** The effect on [svgCode], lines 331-340: the editor is given the text
    when it holds another one, and its listener runs. *)
Definition syncEditor (st : State) : State :=
  if String.eqb (editorDoc st) (svgCode st) then st
  else updateListener (svgCode st) st.

(** A handler run from the state [st]: its setters are applied, and the
    effect runs when [svgCode] changed. *)
Definition runHandler (h : M unit) (st : State) : State :=
  let st' := fold_left applyEvent (events h) st in
  if String.eqb (svgCode st') (svgCode st) then st' else syncEditor st'.

(** The pattern [/\.[^/.]+$/] without its anchor, and [s.replace] of a
    pattern anchored at the end by the empty string: the text up to the
    first index from which the pattern matches the whole rest. *)
Definition extensionPattern : regex :=
  Cat (lit "."%char)
      (Cat (Class (fun c => negb (Ascii.eqb c "/"%char || Ascii.eqb c "."%char)))
           (Star (Class (fun c => negb (Ascii.eqb c "/"%char || Ascii.eqb c "."%char))))).

Fixpoint removeAtEnd (r : regex) (w : list ascii) : list ascii :=
  if matchb r w then []
  else match w with
       | [] => []
       | c :: w' => c :: removeAtEnd r w'
       end.

(** What the user can do. *)
Inductive Action : Type :=
| EditorInput (text : string)
| FileChosen (name content : string)
| ClickPaste
| ClickClear
| ClickZoomIn
| ClickZoomOut
| SliderInput (value : Q)
| ClickExport (format : Format)
| ClickDownload
| ClickCopy.

(** [handleFileUpload], lines 92-106, for a file of this name that reads
    as [content]. *)
Definition handleFileUpload (name content : string) : M unit :=
  let nameWithoutExt :=
    string_of_list_ascii (removeAtEnd extensionPattern (codeUnits name)) in
  emit (SetFileName nameWithoutExt);;
  emit (SetSvgCode content).

Definition dispatch (a : Action) (st : State) : State :=
  match a with
  | EditorInput text => updateListener text st
  | FileChosen name content => runHandler (handleFileUpload name content) st
  | ClickPaste => runHandler handlePasteFromClipboard st
  | ClickClear => runHandler clearSvgCode st
  | ClickZoomIn => runHandler (zoomIn st) st
  | ClickZoomOut => runHandler (zoomOut st) st
  | SliderInput v => runHandler (handleScaleChange v;; resetPosition) st
  | ClickExport format => runHandler (exportAsImage st format) st
  | ClickDownload => runHandler (downloadSvgCode st) st
  | ClickCopy => runHandler (copySvgCode st) st
  end.

(** The range input, lines 411-422, holds a value between its [min] and its
    [max]. *)
Definition sliderMin : Q := tenth.
Definition sliderMax : Q := 3.

Definition admissible (a : Action) : Prop :=
  match a with
  | SliderInput v => (sliderMin <= v)%Q /\ (v <= sliderMax)%Q
  | _ => True
  end.

(** ** Rendering *)

Inductive ActionButton : Type :=
| ExportPngButton
| ExportJpegButton
| DownloadSvgButton
| CopySvgButton.

(** The [disabled] attribute of the action buttons, lines 464-495. *)
Definition disabled (st : State) (b : ActionButton) : bool :=
  match b with
  | ExportPngButton => isEmpty (svgCode st) || negb (isValidSvg (svgCode st))
  | ExportJpegButton => isEmpty (svgCode st) || negb (isValidSvg (svgCode st))
  | DownloadSvgButton => isEmpty (svgCode st)
  | CopySvgButton => isEmpty (svgCode st)
  end.

(** What the preview pane shows, lines 429-443. *)
Inductive Preview : Type :=
| SvgContent (html : string) (scale : Q) (position : Q * Q)
| Placeholder.

Definition renderPreview (st : State) : Preview :=
  if isEmpty (previewSvgCode st) then Placeholder
  else SvgContent (previewSvgCode st) (scale st) (position st).

End Handlers.

(** Double arithmetic rounds monotonically and keeps the doubles 0.1 and 3. *)
Definition roundsToNearest (P : Platform) : Prop :=
  (forall x y : Q, (x <= y)%Q -> (round P x <= round P y)%Q)
  /\ (round P tenth == tenth)%Q
  /\ (round P 3 == 3)%Q.

(** The states the component can be in: the state at mount, and what the
    actions of the user lead to, whatever the platform answers. *)
Inductive reachable : State -> Prop :=
| reachable_init initialSvg : reachable (initialState initialSvg)
| reachable_step P a st :
    roundsToNearest P -> reachable st -> admissible a ->
    reachable (dispatch P a st).


Definition localNameOf (n : Node) : option string :=
  match n with
  | TextNode _ => None
  | ElementNode t _ _ => Some t
  end.

Definition isConsoleError (ev : Event) : bool :=
  match ev with
  | ConsoleError _ => true
  | _ => false
  end.

(** A failure that shows as one error toast and nothing else: no state is
    set, nothing is saved or written; the console aside. *)
Definition surfacedAsToast (evs : list Event) : Prop :=
  exists message,
    List.filter (fun ev => negb (isConsoleError ev)) evs
    = [Toast ToastError message].

(** The handler announced a success. *)
Definition succeeded (evs : list Event) : bool :=
  existsb (isToast ToastSuccess) evs.

(** The canvases whose encoding was saved, and the size of a canvas. *)
Definition savedCanvases (evs : list Event) : list Canvas :=
  flat_map (fun ev => match ev with
                      | SaveAs (CanvasDataURL canvas _ _) _ => [canvas]
                      | _ => []
                      end) evs.

Definition canvasSize (canvas : Canvas) : number * number :=
  (canvasWidth canvas, canvasHeight canvas).

(** No viewBox of four components: none at all, or one that does not split
    into four. *)
Definition noFourComponentViewBox (el : Node) : Prop :=
  forall v, getAttribute el "viewBox" = Some v ->
            length (split " "%char v) <> 4%nat.

(** The editor holds the text of the state, and an empty text has an empty
    preview. *)
Definition inSync (st : State) : Prop :=
  editorDoc st = svgCode st /\ (svgCode st = "" -> previewSvgCode st = "").

(** The zoom factor lies between 0.1 and 3. *)
Definition zoomInRange (st : State) : Prop :=
  (tenth <= scale st)%Q /\ (scale st <= 3)%Q.

(** Malformed markup: empty, or failing the validity check. *)
Definition malformed (code : string) : Prop :=
  code = "" \/ isValidSvg code = false.

(** ** A platform to compute with

    Decimal numerals for [Number] and [toString], exact arithmetic, a DOM
    parser that knows the documents of the examples, an image decoder and a
    canvas that work, and a clipboard that holds a small drawing. *)

Module Sample.

Fixpoint allDigits (s : string) : bool :=
  match s with
  | EmptyString => true
  | String c s' =>
      match digitValue c with
      | Some d => (d <? 10)%Z && allDigits s'
      | None => false
      end
  end.

(** [Number(s)] where [s] is empty or a decimal integer numeral with an
    optional sign; the other numerals (fractions, exponents, other radixes)
    are not read and give NaN here. *)
Definition decimalNumber (s : string) : number :=
  let '(negative, digits) :=
    match s with
    | String "-"%char r => (true, r)
    | String "+"%char r => (false, r)
    | _ => (false, s)
    end in
  if isEmpty s then ofZ 0
  else if allDigits digits then
    match parseDigits 10 digits None with
    | Some z => ofZ (if negative then - z else z)
    | None => NaN
    end
  else NaN.

(** [n.toString()] where [n] is an integer, NaN or an infinity; a fraction
    is written as a quotient here. *)
Definition decimalString (n : number) : string :=
  let numeral (z : Z) := NilZero.string_of_int (Z.to_int z) in
  match n with
  | NaN => "NaN"
  | Infinity false => "Infinity"
  | Infinity true => "-Infinity"
  | Finite q =>
      if (Qnum q mod Zpos (Qden q) =? 0)%Z
      then numeral (Qnum q / Zpos (Qden q))%Z
      else numeral (Qnum q) +:+ "/" +:+ numeral (Zpos (Qden q))
  end.

(** A source with a viewBox and no width or height, and its document. *)
Definition icon : string :=
  "<svg viewBox='0 0 24 24'><path d='M3 6h18'/></svg>".

Definition iconElement : Node :=
  ElementNode "svg" {[ "viewBox" := "0 0 24 24" ]}
    [ElementNode "path" {[ "d" := "M3 6h18" ]} []].

(** A source with a width and no height. *)
Definition banner : string :=
  "<svg width='50' viewBox='0 0 100 200'></svg>".

Definition bannerElement : Node :=
  ElementNode "svg" (<[ "width" := "50" ]> {[ "viewBox" := "0 0 100 200" ]}) [].

(** A source whose viewBox has no width. *)
Definition sliver : string := "<svg viewBox='0 0 0 24'></svg>".

Definition sliverElement : Node :=
  ElementNode "svg" {[ "viewBox" := "0 0 0 24" ]} [].

(** A source with a width and a height below one user unit. *)
Definition speck : string :=
  "<svg width='0.5' height='0.5' viewBox='0 0 24 24'></svg>".

Definition speckElement : Node :=
  ElementNode "svg"
    (<[ "width" := "0.5" ]> (<[ "height" := "0.5" ]> {[ "viewBox" := "0 0 24 24" ]}))
    [].

(** A source with no size at all. *)
Definition bare : string := "<svg><g/></svg>".

Definition bareElement : Node :=
  ElementNode "svg" ∅ [ElementNode "g" ∅ []].

(** The parser knows these sources; any other text gives the document of a
    parse error. *)
Definition parseKnown (s : string) : Node :=
  if String.eqb s icon then iconElement
  else if String.eqb s banner then bannerElement
  else if String.eqb s sliver then sliverElement
  else if String.eqb s speck then speckElement
  else if String.eqb s bare then bareElement
  else ElementNode "parsererror" ∅ [TextNode s].

Definition quote : string := String (ascii_of_nat 34) EmptyString.

Definition serializeAttributes (a : gmap string string) : string :=
  fold_right
    (fun '(k, v) rest => " " +:+ k +:+ "=" +:+ quote +:+ v +:+ quote +:+ rest)
    "" (map_to_list a).

Fixpoint serialize (n : Node) : string :=
  match n with
  | TextNode d => d
  | ElementNode t a cs =>
      "<" +:+ t +:+ serializeAttributes a +:+ ">"
      +:+ fold_right (fun c rest => serialize c +:+ rest) "" cs
      +:+ "</" +:+ t +:+ ">"
  end.

(** The platform: whether images load, whether a canvas has a context, and
    what the clipboard answers are left to choose. *)
Definition platform (loads context : bool) (clipboard : Error + string)
    (written : option Error) : Platform :=
  {| Number := decimalNumber;
     toString := decimalString;
     round := fun q => q;
     parseFromString := parseKnown;
     serializeToString := serialize;
     base64 := fun s => s;
     imageLoads := fun _ => loads;
     hasContext2d := context;
     clipboardReadText := clipboard;
     clipboardWriteText := fun _ => written |}.

(** Everything works, and the clipboard holds the icon. *)
Definition working : Platform := platform true true (inr icon) None.

End Sample.


(** ** The other handlers, and what is observed of a trace *)

(** [handleFileNameChange], lines 88-90. *)
Definition handleFileNameChange (value : string) : M unit :=
  emit (SetFileName value).

Definition isAnyToast (ev : Event) : bool :=
  match ev with
  | Toast _ _ => true
  | _ => false
  end.

(** The events that set a state cell. *)
Definition isSetter (ev : Event) : bool :=
  match ev with
  | SetSvgCode _ | SetFileName _ | SetScale _ | SetPosition _ _ => true
  | _ => false
  end.

(** The element [exportAsImage] serialises for the image, lines 163-165. *)
Definition sizedElement (P : Platform) (svgElement : Node) : Node :=
  setAttribute
    (setAttribute svgElement "width"
       (toString P (fst (exportDimensions P svgElement))))
    "height" (toString P (snd (exportDimensions P svgElement))).

Definition childNodesOf (n : Node) : list Node :=
  match n with
  | TextNode _ => []
  | ElementNode _ _ cs => cs
  end.


(** Neither a dot nor a slash. *)
Definition inExtension (c : ascii) : bool :=
  negb (Ascii.eqb c "/"%char || Ascii.eqb c "."%char).

(** ** The definitions at work *)

Example isValidSvg_accepts :
  isValidSvg "<svg></svg>" = true
  /\ isValidSvg "<SVG width='1'>text</Svg> and more" = true
  /\ isValidSvg "<p>see <svgx>...</svg></p>" = true.
Proof. repeat split. Qed.

Example isValidSvg_rejects :
  isValidSvg "" = false
  /\ isValidSvg "hello" = false
  /\ isValidSvg "<svg/>" = false
  /\ isValidSvg "<svg></svg" = false
  /\ isValidSvg "</svg><svg>" = false.
Proof. repeat split. Qed.

Example parseInt_reads_a_prefix :
  parseInt "100px" = ofZ 100
  /\ parseInt "  -12.5" = ofZ (-12)
  /\ parseInt "0x1f" = ofZ 31
  /\ parseInt "0.5" = ofZ 0
  /\ parseInt "auto" = NaN
  /\ parseInt "" = NaN.
Proof. repeat split. Qed.

Example split_on_spaces :
  split " "%char "0 0 24 24" = ["0"; "0"; "24"; "24"]
  /\ split " "%char "" = [""]
  /\ split " "%char "0 0  24 24" = ["0"; "0"; ""; "24"; "24"].
Proof. repeat split. Qed.

Example trim_strips_both_ends :
  trim "  a b  " = "a b" /\ trim "   " = "" /\ trim "" = "".
Proof. repeat split. Qed.

Example upload_drops_the_extension :
  events (handleFileUpload "logo.min.svg" Sample.icon)
  = [SetFileName "logo.min"; SetSvgCode Sample.icon].
Proof. reflexivity. Qed.

Example preview_of_the_icon :
  ensureSvgDimensions Sample.working Sample.icon
  = Sample.serialize
      (ElementNode "svg"
         (<[ "width" := "24" ]>
            (<[ "height" := "24" ]> {[ "viewBox" := "0 0 24 24" ]}))
         [ElementNode "path" {[ "d" := "M3 6h18" ]} []]).
Proof. reflexivity. Qed.

Example preview_of_a_text : ensureSvgDimensions Sample.working "hello" = "hello".
Proof. reflexivity. Qed.

Example export_of_the_icon :
  map canvasSize
    (savedCanvases
       (events (exportAsImage Sample.working (initialState Sample.icon) jpeg)))
  = [(ofZ 24, ofZ 24)].
Proof. reflexivity. Qed.

Example export_without_an_image :
  exportAsImage (Sample.platform false true (inr Sample.icon) None)
    (initialState Sample.icon) png
  = ([ConsoleError "Image load error:"; ConsoleError "Export failed:";
      Toast ToastError "导出失败，请重试"], inr tt).
Proof. reflexivity. Qed.

Example paste_then_clear :
  let pasted := dispatch Sample.working ClickPaste (initialState "") in
  svgCode pasted = Sample.icon
  /\ renderPreview pasted
     = SvgContent (ensureSvgDimensions Sample.working Sample.icon) 1 (0%Q, 0%Q)
  /\ renderPreview (dispatch Sample.working ClickClear pasted) = Placeholder.
Proof. repeat split. Qed.

(** ** Regular expressions: correctness of the matcher *)

Section RegExpFacts.

Lemma nullable_spec r : nullable r = true <-> Matches r [].
Proof.
  split.
  - induction r; simpl; intros H; try discriminate.
    + constructor.
    + apply andb_true_iff in H as [H1 H2].
      change (@nil ascii) with (@nil ascii ++ []). constructor; auto.
    + apply orb_true_iff in H as [H|H]; [apply MAltL | apply MAltR]; auto.
    + constructor.
  - intros H. remember [] as w eqn:Hw. induction H; simpl; subst; try discriminate; auto.
    + apply app_eq_nil in Hw as [-> ->]. rewrite IHMatches1, IHMatches2; auto.
    + rewrite IHMatches; auto.
    + rewrite IHMatches; auto using orb_true_r.
Qed.

Lemma cat_inv r s w :
  Matches (Cat r s) w <-> exists u v, w = u ++ v /\ Matches r u /\ Matches s v.
Proof.
  split.
  - intros H. inversion H; subst. eauto.
  - intros (u & v & -> & Hu & Hv). now constructor.
Qed.

Lemma alt_inv r s w : Matches (Alt r s) w <-> Matches r w \/ Matches s w.
Proof.
  split.
  - intros H. inversion H; subst; auto.
  - intros [H|H]; [apply MAltL | apply MAltR]; exact H.
Qed.

Lemma class_inv p w : Matches (Class p) w <-> exists c, w = [c] /\ p c = true.
Proof.
  split.
  - intros H. inversion H; subst. eauto.
  - intros (c & -> & Hc). now constructor.
Qed.

Lemma void_inv w : ~ Matches Void w.
Proof. intros H. inversion H. Qed.

Lemma eps_inv w : Matches Eps w <-> w = [].
Proof.
  split.
  - intros H. now inversion H.
  - intros ->. constructor.
Qed.

Lemma star_cons_inv r c w :
  Matches (Star r) (c :: w) ->
  exists u v, w = u ++ v /\ Matches r (c :: u) /\ Matches (Star r) v.
Proof.
  intros H. remember (Star r) as s eqn:Hs. remember (c :: w) as cw eqn:Hcw.
  revert Hs Hcw. induction H as [| | | | | |r' u v Hu _ Hv IH];
    intros Hs Hcw; try discriminate.
  injection Hs as ->. destruct u as [|a u]; simpl in Hcw.
  - auto.
  - injection Hcw as -> <-. eauto.
Qed.

Lemma deriv_spec r : forall c w, Matches (deriv c r) w <-> Matches r (c :: w).
Proof.
  induction r as [| |p|r1 IH1 r2 IH2|r1 IH1 r2 IH2|r IH]; intros c w; simpl.
  - split; intros H; now apply void_inv in H.
  - rewrite eps_inv. split; [intros H; now apply void_inv in H | discriminate].
  - rewrite class_inv. destruct (p c) eqn:Hp.
    + rewrite eps_inv. split.
      * intros ->. eauto.
      * intros (x & Hx & _). now injection Hx.
    + split; [intros H; now apply void_inv in H|].
      intros (x & Hx & Hpx). injection Hx as -> _. congruence.
  - assert (Hcat : Matches (Cat (deriv c r1) r2) w <->
                   exists u v, w = u ++ v /\ Matches r1 (c :: u) /\ Matches r2 v).
    { rewrite cat_inv. split; intros (u & v & -> & Hu & Hv); exists u, v;
        (split; [reflexivity|split; [now apply IH1|exact Hv]]). }
    rewrite (cat_inv r1 r2). destruct (nullable r1) eqn:Hn.
    + rewrite alt_inv, Hcat, IH2. split.
      * intros [(u & v & -> & Hu & Hv) | H].
        -- exists (c :: u), v. auto.
        -- exists [], (c :: w). split; [reflexivity|]. split; [|exact H].
           now apply nullable_spec.
      * intros (u & v & Huv & Hu & Hv). destruct u as [|a u]; simpl in Huv.
        -- right. now subst v.
        -- injection Huv as <- ->. left. eauto.
    + rewrite Hcat. split.
      * intros (u & v & -> & Hu & Hv). exists (c :: u), v. auto.
      * intros (u & v & Huv & Hu & Hv). destruct u as [|a u]; simpl in Huv.
        -- apply nullable_spec in Hu. congruence.
        -- injection Huv as <- ->. eauto.
  - rewrite !alt_inv, IH1, IH2. reflexivity.
  - rewrite cat_inv. split.
    + intros (u & v & -> & Hu & Hv). apply IH in Hu.
      change (c :: u ++ v) with ((c :: u) ++ v). now constructor.
    + intros H. apply star_cons_inv in H as (u & v & -> & Hu & Hv).
      exists u, v. split; [reflexivity|]. split; [now apply IH|exact Hv].
Qed.

Lemma matchb_spec r w : matchb r w = true <-> Matches r w.
Proof.
  revert r. induction w as [|c w IH]; intros r; simpl.
  - apply nullable_spec.
  - rewrite IH. apply deriv_spec.
Qed.

Lemma matchPrefix_spec r w :
  matchPrefix r w = true <-> exists u v, w = u ++ v /\ Matches r u.
Proof.
  revert r. induction w as [|c w IH]; intros r; simpl.
  - rewrite orb_false_r, nullable_spec. split.
    + intros H. exists [], []. auto.
    + intros (u & v & Huv & H). symmetry in Huv.
      apply app_eq_nil in Huv as [-> _]. exact H.
  - rewrite orb_true_iff, IH, nullable_spec. split.
    + intros [H | (u & v & -> & H)].
      * exists [], (c :: w). auto.
      * exists (c :: u), v. split; auto. now apply deriv_spec.
    + intros (u & v & Huv & H). destruct u as [|a u]; simpl in Huv.
      * now left.
      * injection Huv as <- ->. right. exists u, v. split; auto.
        now apply deriv_spec.
Qed.

Lemma test_spec r w :
  test r w = true <-> exists pre u post, w = pre ++ u ++ post /\ Matches r u.
Proof.
  induction w as [|c w IH]; cbn [test].
  - rewrite orb_false_r, matchPrefix_spec. split.
    + intros (u & v & -> & H). exists [], u, v. auto.
    + intros (pre & u & post & Huv & H). symmetry in Huv.
      apply app_eq_nil in Huv as [-> Huv]. apply app_eq_nil in Huv as [-> ->].
      exists [], []. auto.
  - rewrite orb_true_iff, IH, matchPrefix_spec. split.
    + intros [(u & v & Huv & H) | (pre & u & post & -> & H)].
      * exists [], u, v. auto.
      * exists (c :: pre), u, post. auto.
    + intros (pre & u & post & Huv & H). destruct pre as [|a pre]; simpl in Huv.
      * left. eauto.
      * injection Huv as <- ->. right. eauto.
Qed.

Lemma word_spec mk (P : ascii -> ascii -> Prop) s :
  (forall c u, Matches (mk c) u <-> exists x, u = [x] /\ P x c) ->
  forall u, Matches (word mk s) u <-> Forall2 P u s.
Proof.
  intros Hmk. induction s as [|c s IH]; intros u; simpl.
  - split; intros H; inversion H; constructor.
  - split.
    + intros H. inversion H; subst. apply Hmk in H2 as (x & -> & Hx).
      simpl. constructor; auto. now apply IH.
    + intros H. inversion H; subst.
      change (x :: l) with ([x] ++ l). constructor.
      * apply Hmk. eauto.
      * now apply IH.
Qed.

Lemma star_class_spec p u :
  Matches (Star (Class p)) u <-> Forall (fun c => p c = true) u.
Proof.
  split.
  - intros H. remember (Star (Class p)) as r eqn:Hr.
    induction H; try discriminate; injection Hr as ->.
    + constructor.
    + inversion H; subst. simpl. constructor; auto.
  - induction 1 as [|c u Hc _ IH].
    + constructor.
    + change (c :: u) with ([c] ++ u). constructor; auto. now constructor.
Qed.

Lemma litIgnoreCase_spec c u :
  Matches (litIgnoreCase c) u <->
  exists x, u = [x] /\ canonicalize x = canonicalize c.
Proof.
  unfold litIgnoreCase. split.
  - intros H. inversion H; subst. apply Ascii.eqb_eq in H1. eauto.
  - intros (x & -> & Hx). constructor. now apply Ascii.eqb_eq.
Qed.

Lemma Forall2_canonicalize u s :
  Forall2 (fun x c => canonicalize x = canonicalize c) u s <-> equalsIgnoreCase u s.
Proof.
  unfold equalsIgnoreCase. split.
  - induction 1; simpl; congruence.
  - revert s. induction u as [|x u IH]; intros [|c s] H; simpl in H;
      try discriminate; constructor.
    + congruence.
    + apply IH. congruence.
Qed.

Lemma wordIgnoreCase_spec s u :
  Matches (word litIgnoreCase s) u <-> equalsIgnoreCase u s.
Proof.
  rewrite <- Forall2_canonicalize.
  apply (word_spec litIgnoreCase (fun x c => canonicalize x = canonicalize c)).
  apply litIgnoreCase_spec.
Qed.

Lemma svgPattern_spec u :
  Matches svgPattern u <->
  exists open attrs inner close,
    u = open ++ attrs ++ [">"%char] ++ inner ++ close
    /\ equalsIgnoreCase open (codeUnits "<svg")
    /\ Forall (fun c => c <> ">"%char) attrs
    /\ equalsIgnoreCase close (codeUnits "</svg>").
Proof.
  unfold svgPattern.
  set (wo := word litIgnoreCase (codeUnits "<svg")).
  set (wc := word litIgnoreCase (codeUnits "</svg>")).
  split.
  - intros H.
    apply cat_inv in H as (o & r1 & -> & Ho & H).
    apply cat_inv in H as (a & r2 & -> & Ha & H).
    apply cat_inv in H as (g & r3 & -> & Hg & H).
    apply cat_inv in H as (i & cl & -> & Hi & Hcl).
    apply class_inv in Hg as (c & -> & Hc). apply Ascii.eqb_eq in Hc. subst c.
    exists o, a, i, cl. split; [reflexivity|].
    split; [now apply wordIgnoreCase_spec|].
    split; [|now apply wordIgnoreCase_spec].
    apply star_class_spec in Ha. eapply Forall_impl; [exact Ha|].
    simpl. intros c Hc Heq. subst c. discriminate.
  - intros (o & a & i & cl & -> & Ho & Ha & Hcl).
    apply cat_inv. exists o, (a ++ [">"%char] ++ i ++ cl).
    split; [reflexivity|]. split; [now apply wordIgnoreCase_spec|].
    apply cat_inv. exists a, ([">"%char] ++ i ++ cl).
    split; [reflexivity|]. split.
    { apply star_class_spec. eapply Forall_impl; [exact Ha|].
      simpl. intros c Hc. apply negb_true_iff. now apply Ascii.eqb_neq. }
    apply cat_inv. exists [">"%char], (i ++ cl).
    split; [reflexivity|]. split.
    { apply class_inv. exists ">"%char. split; [reflexivity|apply Ascii.eqb_refl]. }
    apply cat_inv. exists i, cl.
    split; [reflexivity|]. split; [|now apply wordIgnoreCase_spec].
    apply star_class_spec. now apply Forall_forall.
Qed.

End RegExpFacts.

(** C3.  For every input string, [isValidSvg] returns true exactly when the
    string contains, letters compared case-insensitively, an opening tag
    [<svg...>] followed somewhere later by a closing tag [</svg>]. *)
Theorem isValidSvg_iff_spec (code : string) :
  isValidSvg code = true <-> spec_hasSvgTags code.
Proof.
  unfold isValidSvg, spec_hasSvgTags. rewrite test_spec. split.
  - intros (pre & u & post & Hw & Hu).
    apply svgPattern_spec in Hu as (o & a & i & cl & -> & Ho & Ha & Hcl).
    exists pre, o, a, i, cl, post. split; [|auto].
    rewrite Hw. now rewrite <- !app_assoc.
  - intros (pre & o & a & i & cl & post & Hw & Ho & Ha & Hcl).
    exists pre, (o ++ a ++ [">"%char] ++ i ++ cl), post. split.
    + rewrite Hw. now rewrite <- !app_assoc.
    + apply svgPattern_spec. exists o, a, i, cl. auto.
Qed.

Lemma isValidSvg_iff_spec_witness :
  spec_hasSvgTags "<SVG width='1'>text</svg>"
  /\ isValidSvg "<svg/>" = false.
Proof.
  split.
  - apply (isValidSvg_iff_spec "<SVG width='1'>text</svg>"). reflexivity.
  - reflexivity.
Defined.

(** ** The document object model: selection and update *)

Section DomFacts.

Lemma Node_nested_ind (Q : Node -> Prop) :
  (forall d, Q (TextNode d)) ->
  (forall t a cs, Forall Q cs -> Q (ElementNode t a cs)) ->
  forall n, Q n.
Proof.
  intros Htext Helem. fix IH 1. intros [d|t a cs].
  - apply Htext.
  - apply Helem. induction cs as [|c cs IHcs]; constructor.
    + apply IH.
    + exact IHcs.
Qed.

Lemma querySelector_localName sel n e :
  querySelector sel n = Some e -> localNameOf e = Some sel.
Proof.
  revert e. induction n as [d|t a cs IH] using Node_nested_ind; intros e; simpl.
  - discriminate.
  - destruct (String.eqb t sel) eqn:Ht.
    + intros [= <-]. simpl. apply String.eqb_eq in Ht. now subst.
    + induction IH as [|c cs Hc _ IHcs]; [discriminate|].
      destruct (querySelector sel c) as [r|] eqn:Hq.
      * intros [= <-]. now apply Hc.
      * exact IHcs.
Qed.

(** The element the code holds is the one in the document: after the update
    the selector finds the updated element, and it finds none exactly when
    there was none. *)
Lemma updateSelected_spec sel f n :
  (forall x, localNameOf x = Some sel -> localNameOf (f x) = Some sel) ->
  match querySelector sel n with
  | None => updateSelected sel f n = None
  | Some e =>
      exists n', updateSelected sel f n = Some n'
                 /\ querySelector sel n' = Some (f e)
  end.
Proof.
  intros Hf. induction n as [d|t a cs IH] using Node_nested_ind; simpl.
  - reflexivity.
  - destruct (String.eqb t sel) eqn:Ht.
    + eexists. split; [reflexivity|].
      apply String.eqb_eq in Ht. subst t.
      specialize (Hf (ElementNode sel a cs) eq_refl).
      destruct (f (ElementNode sel a cs)) as [d|t' a' cs']; [discriminate|].
      injection Hf as ->. simpl. now rewrite String.eqb_refl.
    + induction IH as [|c cs Hc _ IHcs]; [reflexivity|].
      destruct (querySelector sel c) as [r|] eqn:Hq.
      * destruct Hc as (c' & -> & Hc'). simpl.
        eexists. split; [reflexivity|]. simpl. now rewrite Ht, Hc'.
      * rewrite Hc.
        match type of IHcs with
        | match ?q with _ => _ end => destruct q as [e|] eqn:Hrest
        end.
        -- destruct IHcs as (n' & Hn' & Hq').
           match type of Hn' with
           | option_map _ ?u = _ => destruct u as [cs'|] eqn:Hu
           end; [|discriminate].
           injection Hn' as <-. simpl in Hq'. rewrite Ht in Hq'.
           simpl. eexists. split; [reflexivity|]. simpl.
           now rewrite Ht, Hq.
        -- match type of IHcs with
           | option_map _ ?u = _ => destruct u as [cs'|] eqn:Hu
           end; [discriminate|]. reflexivity.
Qed.

Lemma replaceSelected_spec sel element doc e :
  querySelector sel doc = Some e ->
  localNameOf element = Some sel ->
  querySelector sel (replaceSelected sel element doc) = Some element.
Proof.
  intros Hq Hname. unfold replaceSelected.
  pose proof (updateSelected_spec sel (fun _ => element) doc (fun _ _ => Hname))
    as Hu.
  rewrite Hq in Hu. destruct Hu as (doc' & -> & Hq'). exact Hq'.
Qed.

Lemma setAttribute_localName n k v :
  localNameOf (setAttribute n k v) = localNameOf n.
Proof. now destruct n. Qed.



Lemma hasAttribute_true n k :
  hasAttribute n k = true <-> exists v, getAttribute n k = Some v.
Proof.
  unfold hasAttribute. rewrite bool_decide_eq_true. reflexivity.
Qed.

Lemma hasAttribute_false n k :
  hasAttribute n k = false <-> getAttribute n k = None.
Proof.
  unfold hasAttribute. rewrite bool_decide_eq_false.
  rewrite <- eq_None_not_Some. reflexivity.
Qed.

End DomFacts.

(** ** Dimension inference: the normalisation of the preview *)

Section EnsureFacts.

Variable P : Platform.

Lemma viewBoxNumbers_four el v x y w h :
  getAttribute el "viewBox" = Some v ->
  split " "%char v = [x; y; w; h] ->
  viewBoxNumbers P el = Some [Number P x; Number P y; Number P w; Number P h].
Proof.
  intros Hv Hs. unfold viewBoxNumbers. rewrite Hv. simpl. now rewrite Hs.
Qed.

Lemma viewBoxNumbers_not_four el (A : Type) (f : number -> number -> A) (d : A) :
  noFourComponentViewBox el ->
  match viewBoxNumbers P el with
  | Some [_; _; w; h] => f w h
  | _ => d
  end = d.
Proof.
  intros Hno. unfold viewBoxNumbers.
  destruct (getAttribute el "viewBox") as [v|] eqn:Hv; [|reflexivity].
  specialize (Hno v Hv). simpl.
  destruct (split " "%char v) as [|x [|y [|w [|h [|z l]]]]]; simpl in *;
    try reflexivity. congruence.
Qed.

Lemma ensureElementDimensions_localName el :
  localNameOf (ensureElementDimensions P el) = localNameOf el.
Proof.
  unfold ensureElementDimensions.
  repeat match goal with
         | |- context [if ?b then _ else _] => destruct b
         | |- context [match ?o with Some _ => _ | None => _ end] => destruct o
         | |- context [match ?l with [] => _ | _ :: _ => _ end] => destruct l
         | |- _ => rewrite setAttribute_localName
         end; reflexivity.
Qed.

Lemma hasAttribute_insert_eq t a cs k v :
  hasAttribute (ElementNode t (<[k := v]> a) cs) k = true.
Proof.
  apply hasAttribute_true. exists v. unfold getAttribute. simpl.
  apply lookup_insert_eq.
Qed.

Lemma hasAttribute_insert_ne t a cs k k' v :
  k <> k' ->
  hasAttribute (ElementNode t (<[k := v]> a) cs) k'
  = hasAttribute (ElementNode t a cs) k'.
Proof.
  intros Hk. unfold hasAttribute, getAttribute. simpl.
  now rewrite lookup_insert_ne.
Qed.

Lemma getAttribute_insert_eq t a cs k v :
  getAttribute (ElementNode t (<[k := v]> a) cs) k = Some v.
Proof. unfold getAttribute. simpl. apply lookup_insert_eq. Qed.

Lemma getAttribute_insert_ne t a cs k k' v :
  k <> k' ->
  getAttribute (ElementNode t (<[k := v]> a) cs) k'
  = getAttribute (ElementNode t a cs) k'.
Proof. intros Hk. unfold getAttribute. simpl. now rewrite lookup_insert_ne. Qed.

(** The attribute tests of the normalisation, once the tests on the element
    it starts from are known. *)
Ltac attribute_cases :=
  repeat first
    [ progress cbn [negb orb andb setAttribute]
    | rewrite hasAttribute_insert_eq
    | rewrite getAttribute_insert_eq
    | rewrite hasAttribute_insert_ne by (first [discriminate | congruence])
    | rewrite getAttribute_insert_ne by (first [discriminate | congruence])
    | match goal with
      | H : hasAttribute ?n ?k = _ |- context [hasAttribute ?n ?k] => rewrite H
      | H : getAttribute ?n ?k = _ |- context [getAttribute ?n ?k] => rewrite H
      end ].

Lemma ensure_width_from_viewBox t a cs v x y w h :
  getAttribute (ElementNode t a cs) "width" = None ->
  getAttribute (ElementNode t a cs) "viewBox" = Some v ->
  split " "%char v = [x; y; w; h] ->
  getAttribute (ensureElementDimensions P (ElementNode t a cs)) "width"
  = Some (toString P (Number P w)).
Proof.
  intros Hw Hv Hs. unfold ensureElementDimensions.
  rewrite (viewBoxNumbers_four _ _ _ _ _ _ Hv Hs).
  assert (Hbox : hasAttribute (ElementNode t a cs) "viewBox" = true)
    by (apply hasAttribute_true; eauto).
  apply hasAttribute_false in Hw.
  destruct (hasAttribute (ElementNode t a cs) "height") eqn:Hh;
    attribute_cases; reflexivity.
Qed.

Lemma ensure_height_from_viewBox t a cs v x y w h :
  getAttribute (ElementNode t a cs) "height" = None ->
  getAttribute (ElementNode t a cs) "viewBox" = Some v ->
  split " "%char v = [x; y; w; h] ->
  getAttribute (ensureElementDimensions P (ElementNode t a cs)) "height"
  = Some (toString P (Number P h)).
Proof.
  intros Hh Hv Hs. unfold ensureElementDimensions.
  rewrite (viewBoxNumbers_four _ _ _ _ _ _ Hv Hs).
  assert (Hbox : hasAttribute (ElementNode t a cs) "viewBox" = true)
    by (apply hasAttribute_true; eauto).
  apply hasAttribute_false in Hh.
  destruct (hasAttribute (ElementNode t a cs) "width") eqn:Hw;
    attribute_cases; reflexivity.
Qed.

Lemma ensure_width_default t a cs :
  getAttribute (ElementNode t a cs) "width" = None ->
  noFourComponentViewBox (ElementNode t a cs) ->
  getAttribute (ensureElementDimensions P (ElementNode t a cs)) "width"
  = Some "300".
Proof.
  intros Hw Hno. unfold ensureElementDimensions.
  rewrite (viewBoxNumbers_not_four _ _ _ _ Hno).
  apply hasAttribute_false in Hw.
  destruct (hasAttribute (ElementNode t a cs) "height") eqn:Hh;
    destruct (hasAttribute (ElementNode t a cs) "viewBox") eqn:Hbox;
    attribute_cases; reflexivity.
Qed.

Lemma ensure_height_default t a cs :
  getAttribute (ElementNode t a cs) "height" = None ->
  noFourComponentViewBox (ElementNode t a cs) ->
  getAttribute (ensureElementDimensions P (ElementNode t a cs)) "height"
  = Some "300".
Proof.
  intros Hh Hno. unfold ensureElementDimensions.
  rewrite (viewBoxNumbers_not_four _ _ _ _ Hno).
  apply hasAttribute_false in Hh.
  destruct (hasAttribute (ElementNode t a cs) "width") eqn:Hw;
    destruct (hasAttribute (ElementNode t a cs) "viewBox") eqn:Hbox;
    attribute_cases; reflexivity.
Qed.

(** An attribute that is there is kept, whether it is a dimension or not. *)
Lemma ensure_attribute_kept el name value :
  getAttribute el name = Some value ->
  getAttribute (ensureElementDimensions P el) name = Some value.
Proof.
  intros Hn. destruct el as [d|t a cs]; [discriminate|].
  unfold ensureElementDimensions.
  assert (Hcases : name = "width" \/ name = "height"
                   \/ (name <> "width" /\ name <> "height")).
  { destruct (decide (name = "width")); destruct (decide (name = "height")); auto. }
  destruct (viewBoxNumbers P (ElementNode t a cs))
    as [[|x [|y [|w [|h [|z l]]]]]|];
    destruct Hcases as [->|[->|[Hnw Hnh]]].
  all: first
         [ assert (Hw : hasAttribute (ElementNode t a cs) "width" = true)
             by (apply hasAttribute_true; eexists; exact Hn)
         | destruct (hasAttribute (ElementNode t a cs) "width") eqn:Hw ].
  all: first
         [ assert (Hh : hasAttribute (ElementNode t a cs) "height" = true)
             by (apply hasAttribute_true; eexists; exact Hn)
         | destruct (hasAttribute (ElementNode t a cs) "height") eqn:Hh ].
  all: destruct (hasAttribute (ElementNode t a cs) "viewBox") eqn:Hbox.
  all: attribute_cases; first [reflexivity | exact Hn].
Qed.

(** With both dimensions there, nothing is done to the element. *)
Lemma ensure_both_present el :
  hasAttribute el "width" = true ->
  hasAttribute el "height" = true ->
  ensureElementDimensions P el = el.
Proof.
  intros Hw Hh. unfold ensureElementDimensions.
  rewrite Hw, Hh. simpl. rewrite Hw. simpl. now rewrite Hh.
Qed.

Lemma isValidSvg_not_empty code : isValidSvg code = true -> isEmpty code = false.
Proof. destruct code; [discriminate|reflexivity]. Qed.

(** On a source that passes the check and has an [svg] element, the result
    is the text of the document in which that element was normalised. *)
Lemma ensureSvgDimensions_valid code el :
  isValidSvg code = true ->
  querySelector "svg" (parseFromString P code) = Some el ->
  exists doc',
    ensureSvgDimensions P code = serializeToString P doc'
    /\ querySelector "svg" doc' = Some (ensureElementDimensions P el).
Proof.
  intros Hvalid Hq. unfold ensureSvgDimensions.
  rewrite (isValidSvg_not_empty _ Hvalid), Hvalid. simpl. rewrite Hq.
  eexists. split; [reflexivity|].
  apply replaceSelected_spec with el; [exact Hq|].
  rewrite ensureElementDimensions_localName.
  now apply querySelector_localName with (parseFromString P code).
Qed.

(** A source that fails the check is returned as it is. *)
Lemma ensureSvgDimensions_invalid code :
  isValidSvg code = false -> ensureSvgDimensions P code = code.
Proof.
  intros H. unfold ensureSvgDimensions. rewrite H. now rewrite orb_true_r.
Qed.

End EnsureFacts.

(** ** Dimension inference: the size of the raster *)

Section ExportFacts.

Variable P : Platform.

(** Both attributes read as numbers other than zero: these are the size. *)
Lemma export_explicit el :
  let width := parseInt (orElse (getAttribute el "width") "0") in
  let height := parseInt (orElse (getAttribute el "height") "0") in
  falsy width = false -> falsy height = false ->
  exportDimensions P el = (width, height).
Proof.
  intros width height Hw Hh. unfold exportDimensions.
  fold width height. rewrite Hw, Hh. simpl. now rewrite Hw, Hh.
Qed.

(** One of them does not: the viewBox decides, if it has four components
    whose last two are numbers other than zero. *)
Lemma export_viewBox el v x y w h :
  falsy (parseInt (orElse (getAttribute el "width") "0"))
  || falsy (parseInt (orElse (getAttribute el "height") "0")) = true ->
  getAttribute el "viewBox" = Some v ->
  split " "%char v = [x; y; w; h] ->
  exportDimensions P el =
    if falsy (Number P w) || falsy (Number P h) then (ofZ 800, ofZ 600)
    else (Number P w, Number P h).
Proof.
  intros Hf Hv Hs. unfold exportDimensions. rewrite Hf.
  now rewrite (viewBoxNumbers_four _ _ _ _ _ _ _ Hv Hs).
Qed.

Lemma export_default el :
  falsy (parseInt (orElse (getAttribute el "width") "0"))
  || falsy (parseInt (orElse (getAttribute el "height") "0")) = true ->
  noFourComponentViewBox el ->
  exportDimensions P el = (ofZ 800, ofZ 600).
Proof.
  intros Hf Hno. unfold exportDimensions. rewrite Hf.
  rewrite (viewBoxNumbers_not_four P _ _ _ _ Hno). now rewrite Hf.
Qed.

End ExportFacts.

(** ** Handlers: what they emit *)

Section HandlerFacts.

Variable P : Platform.

Lemma fold_applyEvent_editorDoc evs st :
  editorDoc (fold_left applyEvent evs st) = editorDoc st
  /\ previewSvgCode (fold_left applyEvent evs st) = previewSvgCode st.
Proof.
  revert st. induction evs as [|ev evs IH]; intros st; simpl; [auto|].
  destruct (IH (applyEvent st ev)) as [-> ->]. now destruct ev.
Qed.

(** Events that set no state leave the state as it is. *)
Lemma runHandler_no_setter (h : M unit) st :
  fold_left applyEvent (events h) st = st -> runHandler P h st = st.
Proof.
  intros H. unfold runHandler. rewrite H. now rewrite String.eqb_refl.
Qed.

Lemma runHandler_svgCode_fold (h : M unit) st :
  svgCode (runHandler P h st) = svgCode (fold_left applyEvent (events h) st).
Proof.
  unfold runHandler.
  destruct (String.eqb (svgCode (fold_left applyEvent (events h) st)) (svgCode st));
    [reflexivity|].
  unfold syncEditor.
  destruct (String.eqb (editorDoc (fold_left applyEvent (events h) st))
                       (svgCode (fold_left applyEvent (events h) st)));
    reflexivity.
Qed.

Lemma runHandler_svgCode (h : M unit) st :
  editorDoc st = svgCode st ->
  svgCode (runHandler P h st) = svgCode (fold_left applyEvent (events h) st)
  /\ editorDoc (runHandler P h st) = svgCode (runHandler P h st).
Proof.
  intros Hdoc. unfold runHandler.
  destruct (fold_applyEvent_editorDoc (events h) st) as [Hd Hp].
  set (st' := fold_left applyEvent (events h) st) in *.
  destruct (String.eqb (svgCode st') (svgCode st)) eqn:Heq.
  - apply String.eqb_eq in Heq. split; [reflexivity|]. congruence.
  - unfold syncEditor. rewrite Hd, Hdoc, String.eqb_sym, Heq. auto.
Qed.

(** The export when nothing fails. *)
Lemma exportAsImage_success st format el :
  isEmpty (svgCode st) = false ->
  querySelector "svg" (parseFromString P (svgCode st)) = Some el ->
  (forall url, imageLoads P url = true) ->
  hasContext2d P = true ->
  exists ops,
    let canvas :=
      {| canvasWidth := fst (exportDimensions P el);
         canvasHeight := snd (exportDimensions P el);
         canvasOps := ops |} in
    events (exportAsImage P st format) =
      [SaveAs
         match format with
         | png => CanvasDataURL canvas "image/png" None
         | jpeg => CanvasDataURL canvas "image/jpeg" (Some (95 # 100))
         | svg => Blob (svgCode st) "image/svg+xml;charset=utf-8"
         end
         (fileName st +:+
            match format with png => ".png" | jpeg => ".jpg" | svg => ".svg" end);
       Toast ToastSuccess ("导出为 " +:+ toUpperCase format)].
Proof.
  intros Hne Hq Hload Hctx. unfold exportAsImage. rewrite Hne, Hq.
  destruct (exportDimensions P el) as [w h]. unfold loadImage, drawCanvas.
  rewrite Hload, Hctx. eexists. destruct format; reflexivity.
Qed.

End HandlerFacts.

(** ** The component as a transition system *)

Section Invariants.

Lemma ensureSvgDimensions_empty P : ensureSvgDimensions P "" = "".
Proof. reflexivity. Qed.

Lemma updateListener_inSync P text st : inSync (updateListener P text st).
Proof.
  split; simpl; [reflexivity|]. intros ->. apply ensureSvgDimensions_empty.
Qed.

Lemma runHandler_inSync P (h : M unit) st :
  inSync st -> inSync (runHandler P h st).
Proof.
  intros [Hdoc Hprev]. unfold runHandler.
  destruct (fold_applyEvent_editorDoc (events h) st) as [Hd Hp].
  set (st' := fold_left applyEvent (events h) st) in *.
  destruct (String.eqb (svgCode st') (svgCode st)) eqn:Heq.
  - apply String.eqb_eq in Heq. split; [congruence|].
    intros H. rewrite Hp. apply Hprev. congruence.
  - unfold syncEditor. rewrite Hd, Hdoc, String.eqb_sym, Heq.
    apply updateListener_inSync.
Qed.

Lemma dispatch_inSync P a st : inSync st -> inSync (dispatch P a st).
Proof.
  intros H. destruct a; simpl;
    auto using updateListener_inSync, runHandler_inSync.
Qed.

Lemma reachable_inSync st : reachable st -> inSync st.
Proof.
  induction 1 as [initialSvg|P a st _ _ IH _].
  - split; [reflexivity|]. reflexivity.
  - now apply dispatch_inSync.
Qed.

Lemma fold_applyEvent_scale evs st :
  Forall (fun ev => match ev with SetScale _ => False | _ => True end) evs ->
  scale (fold_left applyEvent evs st) = scale st.
Proof.
  intros H. revert st. induction H as [|ev evs Hev _ IH]; intros st; simpl.
  - reflexivity.
  - rewrite IH. now destruct ev.
Qed.

Lemma runHandler_scale P (h : M unit) st :
  scale (runHandler P h st) = scale (fold_left applyEvent (events h) st).
Proof.
  unfold runHandler.
  destruct (String.eqb _ _); [reflexivity|].
  unfold syncEditor. now destruct (String.eqb _ _).
Qed.

Lemma tenth_bounds : (0 <= tenth)%Q /\ (tenth <= 1)%Q /\ (tenth <= 3)%Q.
Proof. repeat split; unfold Qle; simpl; lia. Qed.

Lemma zoomIn_inRange P s :
  roundsToNearest P -> (tenth <= s)%Q ->
  (tenth <= Qmin (round P (s + tenth)) 3)%Q /\ (Qmin (round P (s + tenth)) 3 <= 3)%Q.
Proof.
  intros (Hmono & Htenth & _) Hs. destruct tenth_bounds as (H0 & _ & H3).
  split; [|apply Q.le_min_r].
  apply Q.min_glb; [|exact H3].
  rewrite <- Htenth at 1. apply Hmono.
  rewrite <- (Qplus_0_l tenth) at 1. apply Qplus_le_compat; [|apply Qle_refl].
  now apply Qle_trans with tenth.
Qed.

Lemma zoomOut_inRange P s :
  roundsToNearest P -> (s <= 3)%Q ->
  (tenth <= Qmax (round P (s - tenth)) tenth)%Q
  /\ (Qmax (round P (s - tenth)) tenth <= 3)%Q.
Proof.
  intros (Hmono & _ & Hthree) Hs. destruct tenth_bounds as (H0 & _ & H3).
  split; [apply Q.le_max_r|].
  apply Q.max_lub; [|exact H3].
  rewrite <- Hthree. apply Hmono.
  apply Qle_trans with (s - 0)%Q.
  - apply Qplus_le_compat; [apply Qle_refl|]. now apply Qopp_le_compat.
  - unfold Qminus. now rewrite Qplus_0_r.
Qed.

Lemma events_no_SetScale_paste P :
  Forall (fun ev => match ev with SetScale _ => False | _ => True end)
         (events (handlePasteFromClipboard P)).
Proof.
  unfold handlePasteFromClipboard.
  destruct (clipboardReadText P) as [e|text]; simpl.
  - repeat constructor.
  - destruct (isValidSvg text); repeat constructor.
Qed.

Lemma events_no_SetScale_export P st format :
  Forall (fun ev => match ev with SetScale _ => False | _ => True end)
         (events (exportAsImage P st format)).
Proof.
  unfold exportAsImage.
  destruct (isEmpty (svgCode st)); [repeat constructor|].
  destruct (querySelector "svg" _) as [el|]; [|repeat constructor].
  destruct (exportDimensions P el) as [w h]. unfold loadImage, drawCanvas.
  destruct (imageLoads P _); [|repeat constructor].
  destruct (hasContext2d P); [|repeat constructor].
  destruct format; repeat constructor.
Qed.

Lemma events_no_SetScale_copy P st :
  Forall (fun ev => match ev with SetScale _ => False | _ => True end)
         (events (copySvgCode P st)).
Proof.
  unfold copySvgCode.
  destruct (isEmpty _); [repeat constructor|].
  destruct (clipboardWriteText P _); repeat constructor.
Qed.

Lemma dispatch_zoomInRange P a st :
  roundsToNearest P -> admissible a ->
  zoomInRange st -> zoomInRange (dispatch P a st).
Proof.
  intros HP Ha [Hlo Hhi]. unfold zoomInRange.
  destruct a; simpl; try rewrite runHandler_scale.
  - auto.
  - simpl. auto.
  - rewrite fold_applyEvent_scale by apply events_no_SetScale_paste. auto.
  - simpl. auto.
  - simpl. now apply zoomIn_inRange.
  - simpl. now apply zoomOut_inRange.
  - simpl. exact Ha.
  - rewrite fold_applyEvent_scale by apply events_no_SetScale_export. auto.
  - unfold downloadSvgCode. destruct (isEmpty _); simpl; auto.
  - rewrite fold_applyEvent_scale by apply events_no_SetScale_copy. auto.
Qed.

Lemma reachable_zoomInRange st : reachable st -> zoomInRange st.
Proof.
  induction 1 as [initialSvg|P a st HP _ IH Ha].
  - unfold zoomInRange. simpl. split; unfold Qle; simpl; lia.
  - now apply dispatch_zoomInRange.
Qed.

End Invariants.

(** ** The properties of the specification *)




(** C4, as amended.  [ensureSvgDimensions], on a source that passes the
    validity check, treats width and height one by one: an attribute that is
    there is kept unchanged; a missing one is set from the third,
    respectively fourth, component of a viewBox of four components, and to
    300 when there is no such viewBox.  [exportAsImage] takes the integers
    [parseInt] reads from width and height when both are numbers other than
    zero; otherwise the third and fourth components of a viewBox of four
    components when both are numbers other than zero; otherwise 800 by
    600. *)
Theorem dimension_fallback_order
    (P : Platform) (code : string) (svgElement : Node) :
  querySelector "svg" (parseFromString P code) = Some svgElement ->
  (isValidSvg code = true ->
   exists doc' el',
     ensureSvgDimensions P code = serializeToString P doc'
     /\ querySelector "svg" doc' = Some el'
     /\ (forall name value,
           getAttribute svgElement name = Some value ->
           getAttribute el' name = Some value)
     /\ (hasAttribute svgElement "width" = true ->
         hasAttribute svgElement "height" = true -> el' = svgElement)
     /\ (forall v x y w h,
           getAttribute svgElement "viewBox" = Some v ->
           split " "%char v = [x; y; w; h] ->
           (getAttribute svgElement "width" = None ->
            getAttribute el' "width" = Some (toString P (Number P w)))
           /\ (getAttribute svgElement "height" = None ->
               getAttribute el' "height" = Some (toString P (Number P h))))
     /\ (noFourComponentViewBox svgElement ->
         (getAttribute svgElement "width" = None ->
          getAttribute el' "width" = Some "300")
         /\ (getAttribute svgElement "height" = None ->
             getAttribute el' "height" = Some "300")))
  /\ (let width := parseInt (orElse (getAttribute svgElement "width") "0") in
      let height := parseInt (orElse (getAttribute svgElement "height") "0") in
      (falsy width = false -> falsy height = false ->
       exportDimensions P svgElement = (width, height))
      /\ (falsy width || falsy height = true ->
          (forall v x y w h,
             getAttribute svgElement "viewBox" = Some v ->
             split " "%char v = [x; y; w; h] ->
             (falsy (Number P w) = false -> falsy (Number P h) = false ->
              exportDimensions P svgElement = (Number P w, Number P h))
             /\ (falsy (Number P w) || falsy (Number P h) = true ->
                 exportDimensions P svgElement = (ofZ 800, ofZ 600)))
          /\ (noFourComponentViewBox svgElement ->
              exportDimensions P svgElement = (ofZ 800, ofZ 600)))).
Proof.
  intros Hq.
  pose proof (querySelector_localName _ _ _ Hq) as Hname.
  destruct svgElement as [d|t a cs]; [discriminate|].
  split.
  - intros Hvalid.
    destruct (ensureSvgDimensions_valid P _ _ Hvalid Hq) as (doc' & Hdoc & Hq').
    exists doc', (ensureElementDimensions P (ElementNode t a cs)).
    split; [exact Hdoc|]. split; [exact Hq'|].
    split; [intros name value; apply ensure_attribute_kept|].
    split; [apply ensure_both_present|].
    split.
    + intros v x y w h Hv Hs. split; intros Hnone.
      * now apply (ensure_width_from_viewBox P t a cs v x y w h).
      * now apply (ensure_height_from_viewBox P t a cs v x y w h).
    + intros Hno. split; intros Hnone.
      * now apply ensure_width_default.
      * now apply ensure_height_default.
  - intros width height. split.
    + apply export_explicit.
    + intros Hf. split.
      * intros v x y w h Hv Hs.
        rewrite (export_viewBox P _ v x y w h Hf Hv Hs). split.
        -- intros Hw Hh. now rewrite Hw, Hh.
        -- intros Hwh. now rewrite Hwh.
      * now apply export_default.
Qed.

Lemma dimension_fallback_order_witness :
  exportDimensions Sample.working Sample.bannerElement = (ofZ 100, ofZ 200)
  /\ exportDimensions Sample.working Sample.bareElement = (ofZ 800, ofZ 600).
Proof.
  destruct (dimension_fallback_order Sample.working Sample.banner
              Sample.bannerElement eq_refl) as [_ [_ Hexport]].
  destruct (dimension_fallback_order Sample.working Sample.bare
              Sample.bareElement eq_refl) as [_ [_ Hbare]].
  split.
  - destruct (Hexport eq_refl) as [Hbox _].
    destruct (Hbox "0 0 100 200" "0" "0" "100" "200" eq_refl eq_refl)
      as [Hsize _].
    exact (Hsize eq_refl eq_refl).
  - destruct (Hbare eq_refl) as [_ Hdefault].
    apply Hdefault. intros v Hv. discriminate.
Defined.

(** C4 as stated fails in both routines.  A source with a width and a
    height below one has both attributes, and [exportAsImage] does not keep
    them: the raster has the size of the viewBox.  A source with a width, no
    height and a viewBox of four components does not have both attributes,
    and [ensureSvgDimensions] does not take its width from the viewBox. *)
Lemma explicit_size_not_kept :
  (hasAttribute Sample.speckElement "width" = true
   /\ hasAttribute Sample.speckElement "height" = true
   /\ getAttribute Sample.speckElement "width" = Some "0.5"
   /\ getAttribute Sample.speckElement "height" = Some "0.5"
   /\ exportDimensions Sample.working Sample.speckElement = (ofZ 24, ofZ 24)
   /\ map canvasSize
        (savedCanvases
           (events (exportAsImage Sample.working (initialState Sample.speck) png)))
      = [(ofZ 24, ofZ 24)])
  /\ (hasAttribute Sample.bannerElement "height" = false
      /\ getAttribute Sample.bannerElement "viewBox" = Some "0 0 100 200"
      /\ split " "%char "0 0 100 200" = ["0"; "0"; "100"; "200"]
      /\ getAttribute
           (ensureElementDimensions Sample.working Sample.bannerElement) "width"
         = Some "50"
      /\ toString Sample.working (Number Sample.working "100") = "100"
      /\ getAttribute
           (ensureElementDimensions Sample.working Sample.bannerElement) "height"
         = Some "200").
Proof. repeat split. Qed.

Section DefaultFacts.

Variable P : Platform.






End DefaultFacts.



(** C2, as amended.  [downloadSvgCode], for every editor text that is not
    white space only, saves one blob, whose content is exactly the editor
    text.  [exportAsImage] with format svg saves nothing but a blob whose
    content is exactly the editor text, and saves it, for a text that is not
    empty, when the text parses to a document with an [svg] element, the
    image loads and the canvas has a context.  The text that is saved is
    never the normalised one. *)
Theorem svg_export_is_editor_text (P : Platform) (st : State) :
  (isEmpty (trim (svgCode st)) = false ->
   List.filter isSaveAs (events (downloadSvgCode st))
   = [SaveAs (Blob (svgCode st) "text/plain;charset=utf-8")
             (fileName st +:+ ".svg")])
  /\ (forall data name,
        In (SaveAs data name) (events (exportAsImage P st svg)) ->
        data = Blob (svgCode st) "image/svg+xml;charset=utf-8"
        /\ name = fileName st +:+ ".svg")
  /\ (isEmpty (svgCode st) = false ->
      (exists el, querySelector "svg" (parseFromString P (svgCode st)) = Some el) ->
      (forall url, imageLoads P url = true) ->
      hasContext2d P = true ->
      List.filter isSaveAs (events (exportAsImage P st svg))
      = [SaveAs (Blob (svgCode st) "image/svg+xml;charset=utf-8")
                (fileName st +:+ ".svg")]).
Proof.
  split; [|split].
  - intros Hne. unfold downloadSvgCode. now rewrite Hne.
  - intros data name. unfold exportAsImage.
    destruct (isEmpty (svgCode st)).
    { simpl. intros [H|[]]. discriminate. }
    destruct (querySelector "svg" _) as [el|].
    2:{ simpl. intros [H|[]]. discriminate. }
    destruct (exportDimensions P el) as [w h]. unfold loadImage, drawCanvas.
    destruct (imageLoads P _).
    2:{ simpl. intros [H|[H|[H|[]]]]; discriminate. }
    destruct (hasContext2d P).
    2:{ simpl. intros [H|[H|[]]]; discriminate. }
    simpl. intros [H|[H|[]]]; [|discriminate].
    injection H as <- <-. auto.
  - intros Hne [el Hq] Hload Hctx.
    destruct (exportAsImage_success P st svg _ Hne Hq Hload Hctx) as (ops & ->).
    reflexivity.
Qed.

Lemma svg_export_is_editor_text_witness :
  List.filter isSaveAs
    (events (exportAsImage Sample.working (initialState Sample.icon) svg))
  = [SaveAs (Blob Sample.icon "image/svg+xml;charset=utf-8") "svg-preview.svg"]
  /\ List.filter isSaveAs (events (downloadSvgCode (initialState Sample.icon)))
     = [SaveAs (Blob Sample.icon "text/plain;charset=utf-8") "svg-preview.svg"].
Proof.
  destruct (svg_export_is_editor_text Sample.working (initialState Sample.icon))
    as (Hdownload & _ & Hexport).
  split.
  - apply Hexport; [reflexivity| |reflexivity|reflexivity].
    exists Sample.iconElement. reflexivity.
  - apply Hdownload. reflexivity.
Defined.

(** C2 as stated fails on a text of white space: it is not empty, the
    download button is enabled, and [downloadSvgCode] saves nothing. *)
Lemma blank_text_is_not_saved :
  isEmpty (svgCode (initialState " ")) = false
  /\ disabled (initialState " ") DownloadSvgButton = false
  /\ events (downloadSvgCode (initialState " "))
     = [Toast ToastError "没有 SVG 代码可下载"]
  /\ List.filter isSaveAs (events (downloadSvgCode (initialState " "))) = [].
Proof. repeat split. Qed.

(** C5, as amended.  For every editor text that is malformed (empty, or
    failing the validity check) the PNG and the JPEG export buttons are
    disabled; the download and the copy buttons are disabled exactly when
    the text is empty. *)
Theorem export_buttons_disabled_when_malformed (st : State) :
  malformed (svgCode st) ->
  disabled st ExportPngButton = true
  /\ disabled st ExportJpegButton = true
  /\ disabled st DownloadSvgButton = isEmpty (svgCode st)
  /\ disabled st CopySvgButton = isEmpty (svgCode st).
Proof.
  intros [Hempty|Hinvalid]; unfold disabled.
  - rewrite Hempty. auto.
  - rewrite Hinvalid. simpl. rewrite orb_true_r. auto.
Qed.

Lemma export_buttons_disabled_when_malformed_witness :
  disabled (initialState "<svg>") ExportPngButton = true
  /\ disabled (initialState "<svg>") ExportJpegButton = true
  /\ disabled (initialState "<svg>") DownloadSvgButton = false
  /\ disabled (initialState "<svg>") CopySvgButton = false.
Proof.
  apply (export_buttons_disabled_when_malformed (initialState "<svg>")).
  right. reflexivity.
Defined.

(** C5 as stated fails on a text that is not empty and fails the validity
    check: the download and the copy buttons are enabled. *)
Lemma download_enabled_on_malformed_text :
  malformed (svgCode (initialState "hello"))
  /\ disabled (initialState "hello") DownloadSvgButton = false
  /\ disabled (initialState "hello") CopySvgButton = false.
Proof. split; [right; reflexivity|split; reflexivity]. Qed.

(** C6.  Clearing the editor empties the preview: in every state the
    component can be in, after [clearSvgCode] the editor text is empty, the
    preview string is empty ([ensureSvgDimensions] returns the empty string
    unchanged) and the preview pane shows the placeholder. *)
Theorem clearing_empties_preview (P : Platform) (st : State) :
  reachable st ->
  let st' := dispatch P ClickClear st in
  svgCode st' = ""
  /\ editorDoc st' = ""
  /\ previewSvgCode st' = ""
  /\ renderPreview st' = Placeholder
  /\ ensureSvgDimensions P "" = "".
Proof.
  intros Hreach st'. apply reachable_inSync in Hreach.
  pose proof (dispatch_inSync P ClickClear st Hreach) as [Hdoc Hprev].
  fold st' in Hdoc, Hprev.
  assert (Hcode : svgCode st' = "").
  { unfold st'. simpl.
    destruct Hreach as [Hsync _].
    now rewrite (proj1 (runHandler_svgCode P (clearSvgCode) st Hsync)). }
  split; [exact Hcode|]. split; [congruence|].
  split; [auto|]. split; [|reflexivity].
  unfold renderPreview. now rewrite (Hprev Hcode).
Qed.

Lemma clearing_empties_preview_witness :
  previewSvgCode
    (dispatch Sample.working ClickClear
       (dispatch Sample.working ClickPaste (initialState ""))) = "".
Proof.
  apply (clearing_empties_preview Sample.working
           (dispatch Sample.working ClickPaste (initialState ""))).
  apply reachable_step.
  - repeat split; intros; auto; reflexivity.
  - apply reachable_init.
  - exact I.
Defined.

Section FailureFacts.

Variable P : Platform.

Ltac toast_only := eexists; reflexivity.

(** [exportAsImage] returns, and ends in a success or in one error toast. *)
Lemma exportAsImage_outcome st format :
  returns (exportAsImage P st format) = true
  /\ (succeeded (events (exportAsImage P st format)) = false ->
      surfacedAsToast (events (exportAsImage P st format))).
Proof.
  unfold exportAsImage.
  destruct (isEmpty (svgCode st)); [split; [reflexivity|intros _; toast_only]|].
  destruct (querySelector "svg" _) as [el|];
    [|split; [reflexivity|intros _; toast_only]].
  destruct (exportDimensions P el) as [w h]. unfold loadImage, drawCanvas.
  destruct (imageLoads P _); [|split; [reflexivity|intros _; toast_only]].
  destruct (hasContext2d P); [|split; [reflexivity|intros _; toast_only]].
  destruct format; (split; [reflexivity|discriminate]).
Qed.

Lemma handlePasteFromClipboard_outcome :
  returns (handlePasteFromClipboard P) = true
  /\ (succeeded (events (handlePasteFromClipboard P)) = false ->
      surfacedAsToast (events (handlePasteFromClipboard P))).
Proof.
  unfold handlePasteFromClipboard.
  destruct (clipboardReadText P) as [e|text];
    [split; [reflexivity|intros _; toast_only]|].
  simpl. destruct (isValidSvg text).
  - split; [reflexivity|discriminate].
  - split; [reflexivity|intros _; toast_only].
Qed.

Lemma copySvgCode_outcome st :
  returns (copySvgCode P st) = true
  /\ (succeeded (events (copySvgCode P st)) = false ->
      surfacedAsToast (events (copySvgCode P st))).
Proof.
  unfold copySvgCode.
  destruct (isEmpty _); [split; [reflexivity|intros _; toast_only]|].
  destruct (clipboardWriteText P _).
  - split; [reflexivity|intros _; toast_only].
  - split; [reflexivity|discriminate].
Qed.

(** The failures of the export leave no success behind. *)
Lemma exportAsImage_failure st format :
  isEmpty (svgCode st) = true
  \/ querySelector "svg" (parseFromString P (svgCode st)) = None
  \/ (forall url, imageLoads P url = false)
  \/ hasContext2d P = false ->
  succeeded (events (exportAsImage P st format)) = false.
Proof.
  intros Hcause. unfold exportAsImage.
  destruct (isEmpty (svgCode st)) eqn:Hempty; [reflexivity|].
  destruct (querySelector "svg" _) as [el|] eqn:Hq; [|reflexivity].
  destruct (exportDimensions P el) as [w h]. unfold loadImage, drawCanvas.
  destruct (imageLoads P _) eqn:Hload; [|reflexivity].
  destruct (hasContext2d P) eqn:Hctx; [|reflexivity].
  destruct Hcause as [H|[H|[H|H]]]; try discriminate.
  rewrite H in Hload. discriminate.
Qed.

End FailureFacts.

(** C7.  The handlers [exportAsImage], [handlePasteFromClipboard] and
    [copySvgCode] return whatever fails, so no error escapes them; and a
    failure (no SVG text, no [svg] element, an image that does not load, a
    canvas without a 2d context, a clipboard that refuses the read or the
    write, a clipboard text that is not valid SVG) shows as one error toast
    and nothing else: no state is set, nothing is saved or written. *)
Theorem failures_surface_as_toasts
    (P : Platform) (st : State) (format : Format) :
  (returns (exportAsImage P st format) = true
   /\ returns (handlePasteFromClipboard P) = true
   /\ returns (copySvgCode P st) = true)
  /\ ((succeeded (events (exportAsImage P st format)) = false ->
       surfacedAsToast (events (exportAsImage P st format)))
      /\ (succeeded (events (handlePasteFromClipboard P)) = false ->
          surfacedAsToast (events (handlePasteFromClipboard P)))
      /\ (succeeded (events (copySvgCode P st)) = false ->
          surfacedAsToast (events (copySvgCode P st))))
  /\ ((isEmpty (svgCode st) = true
       \/ querySelector "svg" (parseFromString P (svgCode st)) = None
       \/ (forall url, imageLoads P url = false)
       \/ hasContext2d P = false ->
       surfacedAsToast (events (exportAsImage P st format)))
      /\ ((exists e, clipboardReadText P = inl e)
          \/ (exists text, clipboardReadText P = inr text
                           /\ isValidSvg text = false) ->
          surfacedAsToast (events (handlePasteFromClipboard P)))
      /\ ((exists e, clipboardWriteText P (svgCode st) = Some e) ->
          surfacedAsToast (events (copySvgCode P st)))).
Proof.
  destruct (exportAsImage_outcome P st format) as [Hr1 Hs1].
  destruct (handlePasteFromClipboard_outcome P) as [Hr2 Hs2].
  destruct (copySvgCode_outcome P st) as [Hr3 Hs3].
  split; [auto|]. split; [auto|]. split; [|split].
  - intros Hcause. apply Hs1. now apply exportAsImage_failure.
  - intros Hcause. apply Hs2. unfold handlePasteFromClipboard.
    destruct Hcause as [[e ->]|(text & -> & Hinvalid)]; [reflexivity|].
    simpl. now rewrite Hinvalid.
  - intros [e He]. apply Hs3. unfold copySvgCode.
    destruct (isEmpty _); [reflexivity|]. now rewrite He.
Qed.

Lemma failures_surface_as_toasts_witness :
  surfacedAsToast
    (events (exportAsImage (Sample.platform false true (inr Sample.icon) None)
               (initialState Sample.icon) png))
  /\ surfacedAsToast
       (events (handlePasteFromClipboard
                  (Sample.platform true true (inl (JsError "NotAllowedError")) None)))
  /\ surfacedAsToast
       (events (copySvgCode
                  (Sample.platform true true (inr Sample.icon)
                     (Some (JsError "NotAllowedError")))
                  (initialState Sample.icon))).
Proof.
  split; [|split].
  - apply (failures_surface_as_toasts
             (Sample.platform false true (inr Sample.icon) None)
             (initialState Sample.icon) png).
    right. right. left. reflexivity.
  - apply (failures_surface_as_toasts
             (Sample.platform true true (inl (JsError "NotAllowedError")) None)
             (initialState Sample.icon) png).
    left. eexists. reflexivity.
  - apply (failures_surface_as_toasts
             (Sample.platform true true (inr Sample.icon)
                (Some (JsError "NotAllowedError")))
             (initialState Sample.icon) png).
    eexists. reflexivity.
Defined.

(** C9.  The zoom factor is always within 0.1 and 3: it starts at 1,
    [zoomIn] takes it to min(scale + 0.1, 3), [zoomOut] to
    max(scale - 0.1, 0.1), the slider to a value between its min 0.1 and its
    max 3, and in every state the component can be in it lies between 0.1
    and 3. *)
Theorem zoom_within_bounds :
  (forall initialSvg, scale (initialState initialSvg) = 1%Q)
  /\ (forall P st,
        scale (dispatch P ClickZoomIn st)
        = Qmin (round P (scale st + tenth)) 3)
  /\ (forall P st,
        scale (dispatch P ClickZoomOut st)
        = Qmax (round P (scale st - tenth)) tenth)
  /\ (forall P st value,
        admissible (SliderInput value) ->
        scale (dispatch P (SliderInput value) st) = value
        /\ (tenth <= value)%Q /\ (value <= 3)%Q)
  /\ (forall st, reachable st -> (tenth <= scale st)%Q /\ (scale st <= 3)%Q).
Proof.
  split; [reflexivity|].
  split; [intros P st; simpl; now rewrite runHandler_scale|].
  split; [intros P st; simpl; now rewrite runHandler_scale|].
  split.
  - intros P st value Ha. simpl. rewrite runHandler_scale. simpl. auto.
  - apply reachable_zoomInRange.
Qed.

Lemma zoom_within_bounds_witness :
  (tenth <= scale (dispatch Sample.working ClickZoomOut
                     (dispatch Sample.working (SliderInput tenth)
                        (initialState ""))))%Q
  /\ (scale (dispatch Sample.working ClickZoomIn
               (dispatch Sample.working (SliderInput 3) (initialState "")))
      <= 3)%Q.
Proof.
  assert (Hround : roundsToNearest Sample.working).
  { repeat split; intros; auto; reflexivity. }
  destruct zoom_within_bounds as (_ & _ & _ & _ & Hbound).
  split.
  - apply Hbound. apply reachable_step; [exact Hround| |exact I].
    apply reachable_step; [exact Hround|apply reachable_init|].
    split; unfold Qle; simpl; lia.
  - apply Hbound. apply reachable_step; [exact Hround| |exact I].
    apply reachable_step; [exact Hround|apply reachable_init|].
    split; unfold Qle; simpl; lia.
Defined.



(** ** Further properties of the code *)

Section NormalisationFacts.

Variable P : Platform.

Ltac attribute_tests :=
  repeat first
    [ progress cbn [negb orb andb setAttribute]
    | rewrite hasAttribute_insert_eq
    | rewrite getAttribute_insert_eq
    | rewrite hasAttribute_insert_ne by (first [discriminate | congruence])
    | rewrite getAttribute_insert_ne by (first [discriminate | congruence])
    | match goal with
      | H : hasAttribute ?n ?k = _ |- context [hasAttribute ?n ?k] => rewrite H
      | H : getAttribute ?n ?k = _ |- context [getAttribute ?n ?k] => rewrite H
      end ].

Lemma ensure_has_both t a cs :
  hasAttribute (ensureElementDimensions P (ElementNode t a cs)) "width" = true
  /\ hasAttribute (ensureElementDimensions P (ElementNode t a cs)) "height" = true.
Proof.
  unfold ensureElementDimensions.
  destruct (viewBoxNumbers P (ElementNode t a cs))
    as [[|x [|y [|w [|h [|z l]]]]]|];
    destruct (hasAttribute (ElementNode t a cs) "width") eqn:Hw;
    destruct (hasAttribute (ElementNode t a cs) "height") eqn:Hh;
    destruct (hasAttribute (ElementNode t a cs) "viewBox") eqn:Hbox;
    attribute_tests; split; reflexivity.
Qed.

Lemma ensure_shape t a cs :
  exists a',
    ensureElementDimensions P (ElementNode t a cs) = ElementNode t a' cs
    /\ forall k, k <> "width" -> k <> "height" -> a' !! k = a !! k.
Proof.
  unfold ensureElementDimensions.
  destruct (viewBoxNumbers P (ElementNode t a cs))
    as [[|x [|y [|w [|h [|z l]]]]]|];
    destruct (hasAttribute (ElementNode t a cs) "width") eqn:Hw;
    destruct (hasAttribute (ElementNode t a cs) "height") eqn:Hh;
    destruct (hasAttribute (ElementNode t a cs) "viewBox") eqn:Hbox;
    attribute_tests; eexists; (split; [reflexivity|]); intros k Hkw Hkh;
    rewrite ?lookup_insert_ne by congruence; reflexivity.
Qed.

End NormalisationFacts.

(** X1.  What [ensureSvgDimensions] returns for a source that passes the
    check and has an [svg] element is the text of a document whose [svg]
    element has a width and a height, whatever the source had. *)
Theorem normalised_source_has_both_dimensions
    (P : Platform) (code : string) (svgElement : Node) :
  isValidSvg code = true ->
  querySelector "svg" (parseFromString P code) = Some svgElement ->
  exists doc' el',
    ensureSvgDimensions P code = serializeToString P doc'
    /\ querySelector "svg" doc' = Some el'
    /\ hasAttribute el' "width" = true
    /\ hasAttribute el' "height" = true.
Proof.
  intros Hvalid Hq.
  pose proof (querySelector_localName _ _ _ Hq) as Hname.
  destruct svgElement as [d|t a cs]; [discriminate|].
  destruct (ensureSvgDimensions_valid P _ _ Hvalid Hq) as (doc' & Hdoc & Hq').
  exists doc', (ensureElementDimensions P (ElementNode t a cs)).
  split; [exact Hdoc|]. split; [exact Hq'|]. apply ensure_has_both.
Qed.

Lemma normalised_source_has_both_dimensions_witness :
  exists doc' el',
    ensureSvgDimensions Sample.working Sample.bare
    = serializeToString Sample.working doc'
    /\ querySelector "svg" doc' = Some el'
    /\ hasAttribute el' "width" = true
    /\ hasAttribute el' "height" = true.
Proof.
  apply (normalised_source_has_both_dimensions Sample.working Sample.bare
           Sample.bareElement); reflexivity.
Defined.

(** X2.  The normalisation of the element is idempotent: applied to an
    element it has normalised, it changes nothing. *)
Theorem ensureElementDimensions_idempotent (P : Platform) (el : Node) :
  ensureElementDimensions P (ensureElementDimensions P el)
  = ensureElementDimensions P el.
Proof.
  destruct el as [d|t a cs]; [reflexivity|].
  destruct (ensure_has_both P t a cs) as [Hw Hh].
  now apply ensure_both_present.
Qed.

(** X3.  The normalisation touches the width and the height only: the name
    of the element, its children and every other attribute are as they
    were, and no attribute is removed. *)
Theorem normalisation_touches_dimensions_only
    (P : Platform) (el : Node) :
  localNameOf (ensureElementDimensions P el) = localNameOf el
  /\ childNodesOf (ensureElementDimensions P el) = childNodesOf el
  /\ (forall name,
        name <> "width" -> name <> "height" ->
        getAttribute (ensureElementDimensions P el) name = getAttribute el name)
  /\ (forall name value,
        getAttribute el name = Some value ->
        getAttribute (ensureElementDimensions P el) name = Some value).
Proof.
  split; [apply ensureElementDimensions_localName|].
  split; [|split; [|intros name value; apply ensure_attribute_kept]].
  - destruct el as [d|t a cs]; [reflexivity|].
    destruct (ensure_shape P t a cs) as (a' & -> & _). reflexivity.
  - intros name Hw Hh. destruct el as [d|t a cs]; [reflexivity|].
    destruct (ensure_shape P t a cs) as (a' & -> & Ha').
    unfold getAttribute. simpl. now apply Ha'.
Qed.

Lemma normalisation_touches_dimensions_only_witness :
  getAttribute (ensureElementDimensions Sample.working Sample.bannerElement)
    "viewBox" = Some "0 0 100 200"
  /\ getAttribute (ensureElementDimensions Sample.working Sample.bannerElement)
       "width" = Some "50".
Proof.
  destruct (normalisation_touches_dimensions_only Sample.working
              Sample.bannerElement) as (_ & _ & Hother & Hkept).
  split.
  - rewrite Hother; [reflexivity|discriminate|discriminate].
  - apply Hkept. reflexivity.
Defined.

(** X4.  The size [exportAsImage] computes is never zero and never NaN in
    either direction, whatever the attributes of the element are. *)
Theorem export_size_is_never_falsy (P : Platform) (svgElement : Node) :
  falsy (fst (exportDimensions P svgElement)) = false
  /\ falsy (snd (exportDimensions P svgElement)) = false.
Proof.
  unfold exportDimensions.
  set (width := parseInt (orElse (getAttribute svgElement "width") "0")).
  set (height := parseInt (orElse (getAttribute svgElement "height") "0")).
  assert (Hfinal : forall w h : number,
            falsy (fst (if falsy w || falsy h then (ofZ 800, ofZ 600) else (w, h)))
            = false
            /\ falsy (snd (if falsy w || falsy h then (ofZ 800, ofZ 600) else (w, h)))
               = false).
  { intros w h. destruct (falsy w) eqn:Hw; [split; reflexivity|].
    destruct (falsy h) eqn:Hh; [split; reflexivity|]. simpl. auto. }
  destruct (falsy width || falsy height); [|apply Hfinal].
  destruct (viewBoxNumbers P svgElement) as [[|x [|y [|w [|h [|z l]]]]]|];
    apply Hfinal.
Qed.

Section ExportTraceFacts.

Variable P : Platform.

(** The five ways [exportAsImage] can go. *)
Lemma exportAsImage_cases st format :
  exportAsImage P st format =
    if isEmpty (svgCode st) then ([Toast ToastError "没有SVG代码可导出"], inr tt)
    else
      match querySelector "svg" (parseFromString P (svgCode st)) with
      | None => ([Toast ToastError "无效的SVG代码"], inr tt)
      | Some el =>
          let width := fst (exportDimensions P el) in
          let height := snd (exportDimensions P el) in
          let dataUrl :=
            "data:image/svg+xml;base64,"
            +:+ base64 P (serializeToString P (sizedElement P el)) in
          if imageLoads P dataUrl then
            if hasContext2d P then
              let canvas :=
                {| canvasWidth := width; canvasHeight := height;
                   canvasOps := [FillRect "white" (ofZ 0) (ofZ 0) width height;
                                 DrawImage dataUrl (ofZ 0) (ofZ 0) width height] |} in
              ([SaveAs
                  match format with
                  | png => CanvasDataURL canvas "image/png" None
                  | jpeg => CanvasDataURL canvas "image/jpeg" (Some (95 # 100))
                  | svg => Blob (svgCode st) "image/svg+xml;charset=utf-8"
                  end
                  (fileName st +:+
                     match format with
                     | png => ".png" | jpeg => ".jpg" | svg => ".svg"
                     end);
                Toast ToastSuccess ("导出为 " +:+ toUpperCase format)], inr tt)
            else
              ([ConsoleError "Export failed:";
                Toast ToastError "导出失败，请重试"], inr tt)
          else
            ([ConsoleError "Image load error:"; ConsoleError "Export failed:";
              Toast ToastError "导出失败，请重试"], inr tt)
      end.
Proof.
  unfold exportAsImage, sizedElement.
  destruct (isEmpty (svgCode st)); [reflexivity|].
  destruct (querySelector "svg" _) as [el|]; [|reflexivity].
  destruct (exportDimensions P el) as [w h]. cbn [fst snd].
  unfold loadImage, drawCanvas. cbv zeta.
  destruct (imageLoads P _); [|reflexivity].
  destruct (hasContext2d P); [|reflexivity].
  destruct format; reflexivity.
Qed.

Lemma runHandler_fileName (h : M unit) st :
  fileName (runHandler P h st) = fileName (fold_left applyEvent (events h) st).
Proof.
  unfold runHandler.
  destruct (String.eqb _ _); [reflexivity|].
  unfold syncEditor. now destruct (String.eqb _ _).
Qed.

Lemma runHandler_position (h : M unit) st :
  position (runHandler P h st) = position (fold_left applyEvent (events h) st).
Proof.
  unfold runHandler.
  destruct (String.eqb _ _); [reflexivity|].
  unfold syncEditor. now destruct (String.eqb _ _).
Qed.

(** The export reads the text and the file name of the state, nothing
    else. *)
Lemma exportAsImage_ext st st' format :
  svgCode st = svgCode st' -> fileName st = fileName st' ->
  exportAsImage P st format = exportAsImage P st' format.
Proof. intros Hcode Hname. unfold exportAsImage. now rewrite Hcode, Hname. Qed.

End ExportTraceFacts.

(** The case analysis of a run of [exportAsImage]. *)
Ltac export_cases P st format :=
  rewrite (exportAsImage_cases P st format);
  destruct (isEmpty (svgCode st));
  [|destruct (querySelector "svg" (parseFromString P (svgCode st))) as [?el|];
    [cbv zeta;
     destruct (imageLoads P _);
     [destruct (hasContext2d P)|]|]].

(** X5.  Exporting, downloading and copying never change the state of the
    component: neither the text, nor the file name, the zoom, the position,
    the preview or the editor. *)
Theorem export_download_copy_leave_state
    (P : Platform) (st : State) (format : Format) :
  dispatch P (ClickExport format) st = st
  /\ dispatch P ClickDownload st = st
  /\ dispatch P ClickCopy st = st.
Proof.
  split; [|split]; simpl; apply runHandler_no_setter.
  - export_cases P st format; reflexivity.
  - unfold downloadSvgCode. destruct (isEmpty _); reflexivity.
  - unfold copySvgCode. destruct (isEmpty _); [reflexivity|].
    destruct (clipboardWriteText P _); reflexivity.
Qed.

(** X6.  What is exported does not depend on the view: after zooming in,
    zooming out or moving the slider, [exportAsImage] does exactly what it
    would have done before. *)
Theorem export_ignores_zoom
    (P P' : Platform) (st : State) (format : Format) (value : Q) :
  exportAsImage P (dispatch P' ClickZoomIn st) format = exportAsImage P st format
  /\ exportAsImage P (dispatch P' ClickZoomOut st) format
     = exportAsImage P st format
  /\ exportAsImage P (dispatch P' (SliderInput value) st) format
     = exportAsImage P st format.
Proof.
  split; [|split]; apply exportAsImage_ext; simpl;
    rewrite ?runHandler_svgCode_fold, ?runHandler_fileName; reflexivity.
Qed.



(** X8.  [exportAsImage] saves one file when it announces a success and
    none otherwise; the file is named after the file name of the state, with
    [.png] for png, [.jpg] for jpeg and [.svg] for svg. *)
Theorem export_saves_one_named_file
    (P : Platform) (st : State) (format : Format) :
  let evs := events (exportAsImage P st format) in
  (succeeded evs = false /\ List.filter isSaveAs evs = [])
  \/ (succeeded evs = true
      /\ exists data,
           List.filter isSaveAs evs
           = [SaveAs data
                (fileName st +:+
                   match format with
                   | png => ".png" | jpeg => ".jpg" | svg => ".svg"
                   end)]).
Proof.
  intros evs. unfold evs. export_cases P st format;
    try (left; split; reflexivity).
  right. split; [reflexivity|]. eexists. reflexivity.
Qed.

(** X9.  Every click on paste, clear, export, download or copy shows
    exactly one notification, whatever happens; zooming, the slider,
    renaming and uploading show none. *)
Theorem one_notification_per_click
    (P : Platform) (st : State) (format : Format) (value : Q)
    (name content : string) :
  (length (List.filter isAnyToast (events (handlePasteFromClipboard P))) = 1
   /\ length (List.filter isAnyToast (events clearSvgCode)) = 1
   /\ length (List.filter isAnyToast (events (exportAsImage P st format))) = 1
   /\ length (List.filter isAnyToast (events (downloadSvgCode st))) = 1
   /\ length (List.filter isAnyToast (events (copySvgCode P st))) = 1)%nat
  /\ List.filter isAnyToast (events (zoomIn P st)) = []
  /\ List.filter isAnyToast (events (zoomOut P st)) = []
  /\ List.filter isAnyToast (events (handleScaleChange value;; resetPosition)) = []
  /\ List.filter isAnyToast (events (handleFileNameChange name)) = []
  /\ List.filter isAnyToast (events (handleFileUpload name content)) = [].
Proof.
  split; [|repeat split].
  split; [|split; [reflexivity|split; [|split]]].
  - unfold handlePasteFromClipboard.
    destruct (clipboardReadText P) as [e|text]; [reflexivity|].
    simpl. destruct (isValidSvg text); reflexivity.
  - export_cases P st format; reflexivity.
  - unfold downloadSvgCode. destruct (isEmpty _); reflexivity.
  - unfold copySvgCode. destruct (isEmpty _); [reflexivity|].
    destruct (clipboardWriteText P _); reflexivity.
Qed.

Section ViewFacts.

Lemma fold_applyEvent_position evs st :
  Forall (fun ev => match ev with
                    | SetPosition x y => (x, y) = (0%Q, 0%Q)
                    | _ => True
                    end) evs ->
  position st = (0%Q, 0%Q) ->
  position (fold_left applyEvent evs st) = (0%Q, 0%Q).
Proof.
  intros H. revert st. induction H as [|ev evs Hev _ IH]; intros st Hst; simpl.
  - exact Hst.
  - apply IH. destruct ev; simpl; auto.
Qed.

Lemma dispatch_position P a st :
  position st = (0%Q, 0%Q) -> position (dispatch P a st) = (0%Q, 0%Q).
Proof.
  intros Hst. destruct a; simpl; try rewrite runHandler_position;
    try (apply fold_applyEvent_position; [|exact Hst]).
  - exact Hst.
  - repeat constructor.
  - unfold handlePasteFromClipboard.
    destruct (clipboardReadText P) as [e|text]; [repeat constructor|].
    simpl. destruct (isValidSvg text); repeat constructor.
  - repeat constructor.
  - repeat constructor.
  - repeat constructor.
  - repeat constructor.
  - export_cases P st format; repeat constructor.
  - unfold downloadSvgCode. destruct (isEmpty _); repeat constructor.
  - unfold copySvgCode. destruct (isEmpty _); [repeat constructor|].
    destruct (clipboardWriteText P _); repeat constructor.
Qed.


End ViewFacts.

(** X10.  The preview is never panned: in every state the component can be
    in, the position is (0, 0), so the translation of the preview is always
    0px, 0px. *)
Theorem position_is_always_origin (st : State) :
  reachable st -> position st = (0%Q, 0%Q).
Proof.
  induction 1 as [initialSvg|P a st _ _ IH _].
  - reflexivity.
  - now apply dispatch_position.
Qed.

Lemma position_is_always_origin_witness :
  position (dispatch Sample.working ClickZoomIn
              (dispatch Sample.working ClickPaste (initialState "")))
  = (0%Q, 0%Q).
Proof.
  assert (Hround : roundsToNearest Sample.working).
  { repeat split; intros; auto; reflexivity. }
  apply position_is_always_origin.
  apply reachable_step; [exact Hround| |exact I].
  apply reachable_step; [exact Hround|apply reachable_init|exact I].
Defined.







(** X14.  A text typed in the editor that fails the validity check and is
    not empty is what the preview pane renders, as it is. *)
Theorem invalid_text_is_rendered_raw (P : Platform) (st : State) (text : string) :
  isValidSvg text = false ->
  isEmpty text = false ->
  renderPreview (dispatch P (EditorInput text) st)
  = SvgContent text (scale st) (position st).
Proof.
  intros Hinvalid Hne. simpl. unfold renderPreview. simpl.
  rewrite (ensureSvgDimensions_invalid P text Hinvalid). now rewrite Hne.
Qed.

Lemma invalid_text_is_rendered_raw_witness :
  renderPreview (dispatch Sample.working (EditorInput "<b>hello</b>")
                   (initialState ""))
  = SvgContent "<b>hello</b>" 1 (0%Q, 0%Q).
Proof.
  apply (invalid_text_is_rendered_raw Sample.working (initialState "")
           "<b>hello</b>"); reflexivity.
Defined.

(** X15.  After a click on clear all four action buttons (PNG, JPEG,
    download, copy) are disabled, whatever the state was. *)
Theorem clearing_disables_every_action
    (P : Platform) (st : State) (button : ActionButton) :
  disabled (dispatch P ClickClear st) button = true.
Proof.
  assert (Hcode : svgCode (dispatch P ClickClear st) = "").
  { simpl. now rewrite runHandler_svgCode_fold. }
  unfold disabled. rewrite Hcode. now destruct button.
Qed.

(** X16.  The zoom buttons saturate: zooming in at 3 leaves the zoom at 3,
    and zooming out at 0.1 leaves it at 0.1. *)
Theorem zoom_saturates (P : Platform) (st : State) :
  roundsToNearest P ->
  ((scale st == 3)%Q -> (scale (dispatch P ClickZoomIn st) == 3)%Q)
  /\ ((scale st == tenth)%Q -> (scale (dispatch P ClickZoomOut st) == tenth)%Q).
Proof.
  intros (Hmono & Htenth & Hthree).
  destruct tenth_bounds as (H0 & _ & H3).
  split; intros Hs; simpl; rewrite runHandler_scale; simpl.
  - apply Q.min_r. rewrite <- Hthree at 1. apply Hmono.
    rewrite Hs. rewrite <- (Qplus_0_r 3) at 1.
    apply Qplus_le_compat; [apply Qle_refl|exact H0].
  - apply Q.max_r. rewrite <- Htenth at 2. apply Hmono.
    rewrite Hs. unfold Qminus. rewrite Qplus_opp_r. exact H0.
Qed.

Lemma zoom_saturates_witness :
  (scale (dispatch Sample.working ClickZoomIn
            (dispatch Sample.working (SliderInput 3) (initialState ""))) == 3)%Q.
Proof.
  assert (Hround : roundsToNearest Sample.working).
  { repeat split; intros; auto; reflexivity. }
  destruct (zoom_saturates Sample.working
              (dispatch Sample.working (SliderInput 3) (initialState ""))
              Hround) as [Hin _].
  apply Hin. reflexivity.
Defined.

Section TextFacts.

Lemma codeUnits_app a b : codeUnits (a +:+ b) = codeUnits a ++ codeUnits b.
Proof.
  induction a as [|c a IH]; simpl; [reflexivity|].
  unfold codeUnits in *. simpl. now rewrite IH.
Qed.

Lemma codeUnits_length s : length (codeUnits s) = String.length s.
Proof.
  induction s as [|c s IH]; simpl; [reflexivity|].
  unfold codeUnits in *. simpl. now rewrite IH.
Qed.

Lemma equalsIgnoreCase_length u v : equalsIgnoreCase u v -> length u = length v.
Proof.
  unfold equalsIgnoreCase. intros H.
  rewrite <- (length_map canonicalize u), H. apply length_map.
Qed.

Lemma extensionPattern_spec w :
  Matches extensionPattern w <->
  exists c body,
    w = "."%char :: c :: body
    /\ inExtension c = true
    /\ Forall (fun x => inExtension x = true) body.
Proof.
  unfold extensionPattern. fold inExtension.
  change (fun c : ascii => negb (Ascii.eqb c "/"%char || Ascii.eqb c "."%char))
    with inExtension.
  split.
  - intros H.
    apply cat_inv in H as (d & r1 & -> & Hd & H).
    apply cat_inv in H as (f & body & -> & Hf & Hbody).
    apply class_inv in Hd as (x & -> & Hx). apply Ascii.eqb_eq in Hx. subst x.
    apply class_inv in Hf as (c & -> & Hc).
    apply star_class_spec in Hbody. exists c, body. auto.
  - intros (c & body & -> & Hc & Hbody).
    apply cat_inv. exists ["."%char], (c :: body).
    split; [reflexivity|]. split.
    { apply class_inv. exists "."%char. split; [reflexivity|apply Ascii.eqb_refl]. }
    apply cat_inv. exists [c], body. split; [reflexivity|]. split.
    + apply class_inv. eauto.
    + now apply star_class_spec.
Qed.

Lemma matchb_false r w : ~ Matches r w -> matchb r w = false.
Proof.
  intros H. destruct (matchb r w) eqn:Hm; [|reflexivity].
  apply matchb_spec in Hm. contradiction.
Qed.

(** Before the last dot nothing is cut. *)
Lemma removeAtEnd_extension base ext :
  ext <> [] ->
  Forall (fun x => inExtension x = true) ext ->
  removeAtEnd extensionPattern (base ++ "."%char :: ext) = base.
Proof.
  intros Hne Hext. induction base as [|c base IH]; cbn [removeAtEnd app].
  - destruct ext as [|e ext]; [contradiction|].
    rewrite (proj2 (matchb_spec extensionPattern ("."%char :: e :: ext))).
    + reflexivity.
    + apply extensionPattern_spec. inversion Hext; subst. eauto.
  - rewrite matchb_false; [now rewrite IH|].
    intros Hm. apply extensionPattern_spec in Hm as (x & body & Hw & Hx & Hbody).
    injection Hw as -> Hrest.
    assert (Hin : In "."%char (x :: body)).
    { rewrite <- Hrest. apply in_or_app. right. now left. }
    destruct Hin as [Heq|Hin]; [subst x; discriminate|].
    rewrite Forall_forall in Hbody.
    apply list_elem_of_In in Hin. specialize (Hbody _ Hin). discriminate.
Qed.

Lemma removeAtEnd_no_dot w :
  ~ In "."%char w -> removeAtEnd extensionPattern w = w.
Proof.
  induction w as [|c w IH]; intros Hno; cbn [removeAtEnd].
  - reflexivity.
  - rewrite matchb_false.
    + rewrite IH; [reflexivity|]. intros H. apply Hno. now right.
    + intros Hm. apply extensionPattern_spec in Hm as (x & body & Hw & _).
      injection Hw as -> _. apply Hno. now left.
Qed.

Lemma removeAtEnd_prefix r w : exists rest, w = removeAtEnd r w ++ rest.
Proof.
  induction w as [|c w [rest IH]]; cbn [removeAtEnd].
  - destruct (matchb r []); now exists [].
  - destruct (matchb r (c :: w)).
    + now exists (c :: w).
    + exists rest. simpl. now rewrite <- IH.
Qed.

(** The shape of a text that passes the check. *)
Lemma isValidSvg_spec_of code : isValidSvg code = true -> spec_hasSvgTags code.
Proof.
  unfold isValidSvg, spec_hasSvgTags. rewrite test_spec.
  intros (pre & u & post & Hw & Hu).
  apply svgPattern_spec in Hu as (o & a & i & cl & -> & Ho & Ha & Hcl).
  exists pre, o, a, i, cl, post. split; [|auto].
  rewrite Hw. now rewrite <- !app_assoc.
Qed.

End TextFacts.

(** X17.  An uploaded file named [base.ext], where [ext] is not empty and
    has neither a dot nor a slash, sets the file name to [base]: only the
    last extension is dropped, whatever [base] contains. *)
Theorem upload_strips_the_last_extension (base ext content : string) :
  ext <> "" ->
  Forall (fun c => inExtension c = true) (codeUnits ext) ->
  events (handleFileUpload (base +:+ "." +:+ ext) content)
  = [SetFileName base; SetSvgCode content].
Proof.
  intros Hne Hext. unfold handleFileUpload. cbv zeta.
  rewrite !codeUnits_app.
  change (codeUnits "." ++ codeUnits ext) with ("."%char :: codeUnits ext).
  rewrite removeAtEnd_extension; [|destruct ext; [contradiction|discriminate]|exact Hext].
  unfold codeUnits. now rewrite string_of_list_ascii_of_string.
Qed.

Lemma upload_strips_the_last_extension_witness :
  events (handleFileUpload "icons/v1.2/logo.min.svg" Sample.icon)
  = [SetFileName "icons/v1.2/logo.min"; SetSvgCode Sample.icon].
Proof.
  apply (upload_strips_the_last_extension "icons/v1.2/logo.min" "svg" Sample.icon).
  - discriminate.
  - repeat constructor.
Defined.

(** X18.  The file name an upload sets is always a prefix of the name of
    the file, and the whole name when the name has no dot. *)
Theorem upload_name_is_a_prefix (name content : string) :
  (exists set rest,
     events (handleFileUpload name content)
     = [SetFileName set; SetSvgCode content]
     /\ name = set +:+ rest)
  /\ (~ In "."%char (codeUnits name) ->
      events (handleFileUpload name content)
      = [SetFileName name; SetSvgCode content]).
Proof.
  unfold handleFileUpload. cbv zeta. split.
  - destruct (removeAtEnd_prefix extensionPattern (codeUnits name)) as [rest Hrest].
    exists (string_of_list_ascii (removeAtEnd extensionPattern (codeUnits name))),
           (string_of_list_ascii rest).
    split; [reflexivity|].
    rewrite <- (string_of_list_ascii_of_string name) at 1.
    fold (codeUnits name). rewrite Hrest at 1.
    generalize (removeAtEnd extensionPattern (codeUnits name)) as u.
    induction u as [|c u IH]; simpl; [reflexivity|]. now rewrite IH.
  - intros Hno. rewrite (removeAtEnd_no_dot _ Hno).
    unfold codeUnits. now rewrite string_of_list_ascii_of_string.
Qed.

Lemma upload_name_is_a_prefix_witness :
  events (handleFileUpload "README" "hello")
  = [SetFileName "README"; SetSvgCode "hello"].
Proof.
  apply (upload_name_is_a_prefix "README" "hello").
  intros [H|[H|[H|[H|[H|[H|[]]]]]]]; discriminate.
Defined.

(** X19.  The validity check looks for an SVG anywhere in the text: a text
    that passes it still passes it with any text before and after. *)
Theorem validity_survives_surrounding_text (before code after : string) :
  isValidSvg code = true ->
  isValidSvg (before +:+ code +:+ after) = true.
Proof.
  unfold isValidSvg. rewrite !test_spec.
  intros (pre & u & post & Hw & Hu).
  exists (codeUnits before ++ pre), u, (post ++ codeUnits after).
  split; [|exact Hu].
  rewrite !codeUnits_app, Hw. now rewrite <- !app_assoc.
Qed.

Lemma validity_survives_surrounding_text_witness :
  isValidSvg ("<html><body>" +:+ Sample.icon +:+ "</body></html>") = true.
Proof.
  apply (validity_survives_surrounding_text "<html><body>" Sample.icon
           "</body></html>").
  reflexivity.
Defined.

(** X20.  No text of fewer than eleven code units passes the validity
    check: the shortest one is an opening and a closing tag with nothing
    between. *)
Theorem valid_text_has_eleven_code_units (code : string) :
  isValidSvg code = true -> (11 <= String.length code)%nat.
Proof.
  intros Hvalid. apply isValidSvg_spec_of in Hvalid.
  destruct Hvalid as (b & o & a & i & c & r & Hw & Ho & _ & Hc).
  apply equalsIgnoreCase_length in Ho. apply equalsIgnoreCase_length in Hc.
  rewrite <- codeUnits_length, Hw. rewrite !length_app.
  simpl in Ho, Hc. simpl. lia.
Qed.

Lemma valid_text_has_eleven_code_units_witness :
  (11 <= String.length "<svg></svg>")%nat.
Proof.
  apply (valid_text_has_eleven_code_units "<svg></svg>"). reflexivity.
Defined.

Section IntegerFacts.


End IntegerFacts.



(** X22.  Renaming changes the file name and nothing else, and the name is
    used as it was typed: the next download is named after it, with [.svg]
    added, without any check of the name. *)
Theorem rename_is_used_verbatim (P : Platform) (st : State) (value : string) :
  let st' := runHandler P (handleFileNameChange value) st in
  st' = {| svgCode := svgCode st; fileName := value; scale := scale st;
           position := position st; previewSvgCode := previewSvgCode st;
           editorDoc := editorDoc st |}
  /\ (isEmpty (trim (svgCode st)) = false ->
      List.filter isSaveAs (events (downloadSvgCode st'))
      = [SaveAs (Blob (svgCode st) "text/plain;charset=utf-8")
                (value +:+ ".svg")]).
Proof.
  intros st'.
  assert (Hst' : st' = {| svgCode := svgCode st; fileName := value;
                          scale := scale st; position := position st;
                          previewSvgCode := previewSvgCode st;
                          editorDoc := editorDoc st |}).
  { unfold st', runHandler. simpl. now rewrite String.eqb_refl. }
  split; [exact Hst'|].
  intros Hne. rewrite Hst'. unfold downloadSvgCode. simpl. now rewrite Hne.
Qed.

Lemma rename_is_used_verbatim_witness :
  List.filter isSaveAs
    (events (downloadSvgCode
               (runHandler Sample.working (handleFileNameChange "")
                  (initialState Sample.icon))))
  = [SaveAs (Blob Sample.icon "text/plain;charset=utf-8") ".svg"].
Proof.
  apply (rename_is_used_verbatim Sample.working (initialState Sample.icon) "").
  reflexivity.
Defined.
